(** * SortingHat core: data model and query layer

    A shallow embedding of [sortinghat/core/models.py] and
    [sortinghat/core/schema.py].

    - Module [Models] follows [models.py]: the module constants, one
      sub-module per Django model (its field declarations, its [Meta]
      options and the record of a stored row), the entity store, and the
      effect of deleting a row as Django's collector derives it from the
      declared [on_delete] options.
    - Module [Api] holds the operations of [sortinghat/core/api.py].
    - Module [Schema] follows [schema.py]: Django's [Paginator], the query
      sets the resolvers build, and the resolvers themselves. *)

From stdpp Require Import base decidable option list gmap strings sorting.
From Stdlib Require Import ZArith Lia.

Open Scope string_scope.
Open Scope list_scope.
Open Scope Z_scope.

(** ** Exceptions and results *)

(** The typed errors of the operation API, and the Python and Django
    exceptions the query layer can raise. *)
Inductive exception :=
  | NotFoundError
  | DuplicateEntityError
  | EqualIdentitiesError
  | InvalidValueError
  | InvalidPeriodError
  | InvalidFilterError
  | ImportError (name : string)
  | KeyError (key : string)
  | FieldError (keyword : string)
  | EmptyPage
  | ZeroDivisionError
  | NegativeIndexing.

Inductive result (A : Type) :=
  | Ok (a : A)
  | Err (e : exception).
Arguments Ok {A} a.
Arguments Err {A} e.

#[global] Instance result_ret : MRet result := λ A a, Ok a.
#[global] Instance result_bind : MBind result := λ A B f m,
  match m with
  | Ok a => f a
  | Err e => Err e
  end.

#[global] Instance result_fmap : FMap result := λ A B f m,
  match m with
  | Ok a => Ok (f a)
  | Err e => Err e
  end.

Definition is_ok {A} (r : result A) : bool :=
  match r with Ok _ => true | Err _ => false end.

(** ** Dates *)

(** [datetime.datetime(y, m, d, H, M, S, tzinfo=tzutc())]: every date of the
    program is timezone-aware and in UTC. *)
Record datetime := Datetime {
  year : Z; month : Z; day : Z;
  hour : Z; minute : Z; second : Z;
  microsecond : Z
}.

#[global] Instance datetime_eq_dec : EqDecision datetime.
Proof. solve_decision. Defined.

(** Days between 1970-01-01 and a date of the proleptic Gregorian calendar. *)
Definition days_from_civil (y m d : Z) : Z :=
  let y' := if m <=? 2 then y - 1 else y in
  let era := y' / 400 in
  let yoe := y' - era * 400 in
  let mp := (m + 9) mod 12 in
  let doy := (153 * mp + 2) / 5 + d - 1 in
  let doe := yoe * 365 + yoe / 4 - yoe / 100 + doy in
  era * 146097 + doe - 719468.

(** The instant of an aware UTC date, in microseconds since the epoch.
    Python orders and compares aware dates by that instant. *)
Definition instant (t : datetime) : Z :=
  ((days_from_civil (year t) (month t) (day t) * 24 + hour t) * 60
     + minute t) * 60 * 1000000
  + second t * 1000000 + microsecond t.

Definition dt_le (a b : datetime) : Prop := instant a <= instant b.
Definition dt_lt (a b : datetime) : Prop := instant a < instant b.

#[global] Instance dt_le_dec a b : Decision (dt_le a b).
Proof. unfold dt_le. apply _. Defined.
#[global] Instance dt_lt_dec a b : Decision (dt_lt a b).
Proof. unfold dt_lt. apply _. Defined.

(** ** models.py *)

Module Models.

(** Default dates for periods. *)
Definition MIN_PERIOD_DATE : datetime := Datetime 1900 1 1 0 0 0 0.
Definition MAX_PERIOD_DATE : datetime := Datetime 2100 1 1 0 0 0 0.

(** Innodb and utf8mb4 can only index 191 characters. *)
Definition MAX_SIZE_CHAR_INDEX : Z := 191.
Definition MAX_SIZE_CHAR_FIELD : Z := 128.

(** *** Field declarations *)

Inductive on_delete_action := CASCADE | SET_NULL.

(** A [ForeignKey] or [OneToOneField] declaration. *)
Record relation := Relation {
  to : string;
  related_name : option string;
  on_delete : on_delete_action;
  db_column : option string
}.

Inductive field_type :=
  | CharField (max_length : Z)
  | BooleanField
  | DateTimeField
  | CreationDateTimeField
  | LastModificationDateTimeField
  | PositiveIntegerField
  | BinaryField
  | AutoField
  | ForeignKey (r : relation)
  | OneToOneField (r : relation).

Record field := Field {
  fname : string;
  ftype : field_type;
  primary_key : bool;
  null : bool
}.

(** A model class: its name, its fields in declaration order (those of
    [ModelBase] first) and its [Meta] options. A model that declares no
    primary key gets Django's implicit [id = AutoField(primary_key=True)]. *)
Record model := Model {
  model_name : string;
  fields : list field;
  db_table : string;
  unique_together : list string;
  ordering : list string
}.

#[global] Instance on_delete_action_eq_dec : EqDecision on_delete_action.
Proof. solve_decision. Defined.
#[global] Instance relation_eq_dec : EqDecision relation.
Proof. solve_decision. Defined.
#[global] Instance field_type_eq_dec : EqDecision field_type.
Proof. solve_decision. Defined.
#[global] Instance field_eq_dec : EqDecision field.
Proof. solve_decision. Defined.
#[global] Instance model_eq_dec : EqDecision model.
Proof. solve_decision. Defined.

(** [class ModelBase(Model)], abstract. *)
Definition ModelBase_fields : list field :=
  [ Field "created_at" CreationDateTimeField false false;
    Field "last_modified" LastModificationDateTimeField false false ].

Definition implicit_id : field := Field "id" AutoField true false.

(** *** The models *)

Module Organization.
Definition meta : model :=
  Model "Organization"
    (implicit_id :: ModelBase_fields ++
     [ Field "name" (CharField MAX_SIZE_CHAR_INDEX) false false ])
    "organizations" ["name"] [].

Record t := Row {
  id : Z;
  created_at : datetime;
  last_modified : datetime;
  name : string
}.
End Organization.

Module Domain.
Definition organization_rel : relation :=
  Relation "Organization" (Some "domains") CASCADE None.

Definition meta : model :=
  Model "Domain"
    (implicit_id :: ModelBase_fields ++
     [ Field "domain" (CharField MAX_SIZE_CHAR_FIELD) false false;
       Field "is_top_domain" BooleanField false false;
       Field "organization" (ForeignKey organization_rel) false false ])
    "domains_organizations" ["domain"] ["domain"].

Record t := Row {
  id : Z;
  created_at : datetime;
  last_modified : datetime;
  domain : string;
  is_top_domain : bool;
  organization : Z
}.
End Domain.

Module Country.
Definition meta : model :=
  Model "Country"
    (ModelBase_fields ++
     [ Field "code" (CharField 2) true false;
       Field "name" (CharField MAX_SIZE_CHAR_INDEX) false false;
       Field "alpha3" (CharField 3) false false ])
    "countries" ["alpha3"] [].

Record t := Row {
  created_at : datetime;
  last_modified : datetime;
  code : string;
  name : string;
  alpha3 : string
}.
End Country.

Module UniqueIdentity.
Definition meta : model :=
  Model "UniqueIdentity"
    (ModelBase_fields ++
     [ Field "uuid" (CharField MAX_SIZE_CHAR_FIELD) true false ])
    "uidentities" [] [].

Record t := Row {
  created_at : datetime;
  last_modified : datetime;
  uuid : string
}.
End UniqueIdentity.

Module Identity.
Definition uidentity_rel : relation :=
  Relation "UniqueIdentity" (Some "identities") CASCADE (Some "uuid").

Definition meta : model :=
  Model "Identity"
    (ModelBase_fields ++
     [ Field "id" (CharField MAX_SIZE_CHAR_FIELD) true false;
       Field "name" (CharField MAX_SIZE_CHAR_FIELD) false true;
       Field "email" (CharField MAX_SIZE_CHAR_FIELD) false true;
       Field "username" (CharField MAX_SIZE_CHAR_FIELD) false true;
       Field "source" (CharField 32) false false;
       Field "uidentity" (ForeignKey uidentity_rel) false false ])
    "identities" ["name"; "email"; "username"; "source"] [].

Record t := Row {
  created_at : datetime;
  last_modified : datetime;
  id : string;
  name : option string;
  email : option string;
  username : option string;
  source : string;
  uidentity : string
}.
End Identity.

Module Profile.
Definition uidentity_rel : relation :=
  Relation "UniqueIdentity" (Some "profile") CASCADE (Some "uuid").
Definition country_rel : relation :=
  Relation "Country" None SET_NULL (Some "country_code").

Definition meta : model :=
  Model "Profile"
    (implicit_id :: ModelBase_fields ++
     [ Field "uidentity" (OneToOneField uidentity_rel) false false;
       Field "name" (CharField MAX_SIZE_CHAR_FIELD) false true;
       Field "email" (CharField MAX_SIZE_CHAR_FIELD) false true;
       Field "gender" (CharField 32) false true;
       Field "gender_acc" PositiveIntegerField false true;
       Field "is_bot" BooleanField false false;
       Field "country" (ForeignKey country_rel) false true ])
    "profiles" [] [].

Record t := Row {
  id : Z;
  created_at : datetime;
  last_modified : datetime;
  uidentity : string;
  name : option string;
  email : option string;
  gender : option string;
  gender_acc : option Z;
  is_bot : bool;
  country : option string
}.
End Profile.

Module Enrollment.
Definition uidentity_rel : relation :=
  Relation "UniqueIdentity" (Some "enrollments") CASCADE (Some "uuid").
Definition organization_rel : relation :=
  Relation "Organization" (Some "enrollments") CASCADE None.

(** The defaults of the [start] and [end] columns. *)
Definition start_default : datetime := MIN_PERIOD_DATE.
Definition end_default : datetime := MAX_PERIOD_DATE.

Definition meta : model :=
  Model "Enrollment"
    (implicit_id :: ModelBase_fields ++
     [ Field "uidentity" (ForeignKey uidentity_rel) false false;
       Field "organization" (ForeignKey organization_rel) false false;
       Field "start" DateTimeField false false;
       Field "end" DateTimeField false false ])
    "enrollments" ["uidentity"; "organization"; "start"; "end"]
    ["start"; "end"].

(** [end] is a keyword here: the column is [end_]. *)
Record t := Row {
  id : Z;
  created_at : datetime;
  last_modified : datetime;
  uidentity : string;
  organization : Z;
  start : datetime;
  end_ : datetime
}.
End Enrollment.

Module MatchingBlacklist.
Definition meta : model :=
  Model "MatchingBlacklist"
    (ModelBase_fields ++
     [ Field "excluded" (CharField MAX_SIZE_CHAR_FIELD) true false ])
    "matching_blacklist" [] [].

Record t := Row {
  created_at : datetime;
  last_modified : datetime;
  excluded : string
}.
End MatchingBlacklist.

Module Context.
Definition ADD_ID := "add_identity".
Definition DELETE_ID := "delete_identity".
Definition UPDATE_PROFILE := "update_profile".
Definition MOVE_ID := "move_identity".
Definition ADD_ORG := "add_organization".
Definition DELETE_ORG := "delete_organization".
Definition ENROLL := "enroll".
Definition WITHDRAW := "withdraw".
Definition MERGE_IDENTITIES := "merge_identities".

Definition OPERATION_CHOICES : list (string * string) :=
  [ (ADD_ID, "add_identity"); (DELETE_ID, "delete_identity");
    (UPDATE_PROFILE, "update_profile"); (MOVE_ID, "move_identity");
    (ADD_ORG, "add_organization"); (DELETE_ORG, "delete_organization");
    (ENROLL, "enroll"); (WITHDRAW, "withdraw");
    (MERGE_IDENTITIES, "merge_identities") ].

Definition meta : model :=
  Model "Context"
    (ModelBase_fields ++
     [ Field "cuid" (CharField MAX_SIZE_CHAR_FIELD) true false;
       Field "operation" (CharField MAX_SIZE_CHAR_FIELD) false false;
       Field "timestamp" CreationDateTimeField false false ])
    "contexts" [] ["timestamp"; "cuid"].

Record t := Row {
  created_at : datetime;
  last_modified : datetime;
  cuid : string;
  operation : string;
  timestamp : datetime
}.
End Context.

Module Transaction.
Definition ADD := "add".
Definition DELETE := "delete".
Definition UPDATE := "update".
Definition UUID := "uuid".
Definition UID := "uid".
Definition ORG := "org".
Definition DOMAIN := "domain".
Definition ENROLLMENT := "enrollment".
Definition PROFILE := "profile".
Definition BLACKLIST := "blacklist".

Definition OPERATION_CHOICES : list (string * string) :=
  [ (ADD, "add"); (DELETE, "delete"); (UPDATE, "update") ].
Definition ENTITY_CHOICES : list (string * string) :=
  [ (UUID, "unique_identity"); (UID, "identity"); (ORG, "organization");
    (DOMAIN, "domain"); (ENROLLMENT, "enrollment"); (PROFILE, "profile");
    (BLACKLIST, "blacklist_entry") ].

Definition context_rel : relation :=
  Relation "Context" None SET_NULL (Some "cuid").

Definition meta : model :=
  Model "Transaction"
    (ModelBase_fields ++
     [ Field "tuid" (CharField MAX_SIZE_CHAR_FIELD) true false;
       Field "operation" (CharField MAX_SIZE_CHAR_FIELD) false false;
       Field "entity" (CharField MAX_SIZE_CHAR_FIELD) false false;
       Field "context" (ForeignKey context_rel) false true;
       Field "timestamp" CreationDateTimeField false false;
       Field "args" BinaryField false false ])
    "transactions" [] ["timestamp"; "tuid"; "context"].

Record t := Row {
  created_at : datetime;
  last_modified : datetime;
  tuid : string;
  operation : string;
  entity : string;
  context : option string;
  timestamp : datetime;
  args : list Byte.byte
}.
End Transaction.

(** The model classes the module defines, in the order of the file. *)
Definition models : list model :=
  [ Organization.meta; Domain.meta; Country.meta; UniqueIdentity.meta;
    Identity.meta; Profile.meta; Enrollment.meta; MatchingBlacklist.meta;
    Context.meta; Transaction.meta ].

(** Every name bound at the top level of the module: its imports, its
    constants and its classes. [from .models import X] finds these and,
    besides Python's own double-underscore attributes, no other name. *)
Definition namespace : list string :=
  [ "datetime"; "dateutil";
    "CASCADE"; "SET_NULL"; "Model"; "BooleanField"; "CharField";
    "DateTimeField"; "PositiveIntegerField"; "ForeignKey"; "OneToOneField";
    "BinaryField";
    "datetime_utcnow";
    "MIN_PERIOD_DATE"; "MAX_PERIOD_DATE";
    "MAX_SIZE_CHAR_INDEX"; "MAX_SIZE_CHAR_FIELD";
    "CreationDateTimeField"; "LastModificationDateTimeField"; "ModelBase" ]
  ++ (model_name <$> models).

Definition find_model (name : string) : option model :=
  find (λ m, bool_decide (model_name m = name)) models.

(** A string-keyed column: the primary key, or a column of the model's
    [unique_together]. The other [CharField]s are plain text columns. *)
Definition is_key (m : model) (f : field) : bool :=
  primary_key f || bool_decide (fname f ∈ unique_together m).

(** Every [CharField] of every model, with its [max_length]. *)
Definition char_fields : list (model * field * Z) :=
  m ← models;
  f ← fields m;
  match ftype f with
  | CharField n => [(m, f, n)]
  | _ => []
  end.

(** *** The entity store *)

(** One list of rows per table, named by [db_table], and the last value
    the implicit [AutoField] keys have handed out. *)
Record Store := MkStore {
  organizations : list Organization.t;
  domains_organizations : list Domain.t;
  countries : list Country.t;
  uidentities : list UniqueIdentity.t;
  identities : list Identity.t;
  profiles : list Profile.t;
  enrollments : list Enrollment.t;
  matching_blacklist : list MatchingBlacklist.t;
  contexts : list Context.t;
  transactions : list Transaction.t;
  autofield : Z
}.

Definition empty_store : Store := MkStore [] [] [] [] [] [] [] [] [] [] 0.

Definition set_organizations (v : list Organization.t) (st : Store) : Store :=
  MkStore v (domains_organizations st) (countries st) (uidentities st)
    (identities st) (profiles st) (enrollments st) (matching_blacklist st)
    (contexts st) (transactions st) (autofield st).
Definition set_domains_organizations (v : list Domain.t) (st : Store) : Store :=
  MkStore (organizations st) v (countries st) (uidentities st)
    (identities st) (profiles st) (enrollments st) (matching_blacklist st)
    (contexts st) (transactions st) (autofield st).
Definition set_countries (v : list Country.t) (st : Store) : Store :=
  MkStore (organizations st) (domains_organizations st) v (uidentities st)
    (identities st) (profiles st) (enrollments st) (matching_blacklist st)
    (contexts st) (transactions st) (autofield st).
Definition set_uidentities (v : list UniqueIdentity.t) (st : Store) : Store :=
  MkStore (organizations st) (domains_organizations st) (countries st) v
    (identities st) (profiles st) (enrollments st) (matching_blacklist st)
    (contexts st) (transactions st) (autofield st).
Definition set_identities (v : list Identity.t) (st : Store) : Store :=
  MkStore (organizations st) (domains_organizations st) (countries st)
    (uidentities st) v (profiles st) (enrollments st) (matching_blacklist st)
    (contexts st) (transactions st) (autofield st).
Definition set_profiles (v : list Profile.t) (st : Store) : Store :=
  MkStore (organizations st) (domains_organizations st) (countries st)
    (uidentities st) (identities st) v (enrollments st) (matching_blacklist st)
    (contexts st) (transactions st) (autofield st).
Definition set_enrollments (v : list Enrollment.t) (st : Store) : Store :=
  MkStore (organizations st) (domains_organizations st) (countries st)
    (uidentities st) (identities st) (profiles st) v (matching_blacklist st)
    (contexts st) (transactions st) (autofield st).
Definition set_contexts (v : list Context.t) (st : Store) : Store :=
  MkStore (organizations st) (domains_organizations st) (countries st)
    (uidentities st) (identities st) (profiles st) (enrollments st)
    (matching_blacklist st) v (transactions st) (autofield st).
Definition set_transactions (v : list Transaction.t) (st : Store) : Store :=
  MkStore (organizations st) (domains_organizations st) (countries st)
    (uidentities st) (identities st) (profiles st) (enrollments st)
    (matching_blacklist st) (contexts st) v (autofield st).
Definition set_autofield (v : Z) (st : Store) : Store :=
  MkStore (organizations st) (domains_organizations st) (countries st)
    (uidentities st) (identities st) (profiles st) (enrollments st)
    (matching_blacklist st) (contexts st) (transactions st) v.

(** *** Deleting a row *)

(** What Django's deletion collector does to the rows of a table that holds
    a relation [r] when a row they may refer to is deleted: with [CASCADE]
    the referring rows go too, with [SET_NULL] their reference is set to
    null by an UPDATE of that one column ([save] is not called, the other
    columns keep their values). [set_null] is only used for a relation
    declared [SET_NULL], which Django accepts on nullable columns only. *)
Definition collect {A} (r : relation) (refers : A → Prop)
    `{!∀ x, Decision (refers x)} (set_null : A → A) (rows : list A) : list A :=
  match on_delete r with
  | CASCADE => filter (λ x, ¬ refers x) rows
  | SET_NULL => (λ x, if decide (refers x) then set_null x else x) <$> rows
  end.

Definition Profile_null_country (p : Profile.t) : Profile.t :=
  Profile.Row (Profile.id p) (Profile.created_at p) (Profile.last_modified p)
    (Profile.uidentity p) (Profile.name p) (Profile.email p) (Profile.gender p)
    (Profile.gender_acc p) (Profile.is_bot p) None.

Definition Transaction_null_context (t : Transaction.t) : Transaction.t :=
  Transaction.Row (Transaction.created_at t) (Transaction.last_modified t)
    (Transaction.tuid t) (Transaction.operation t) (Transaction.entity t)
    None (Transaction.timestamp t) (Transaction.args t).

(** [Organization.delete()]: [Domain.organization] and
    [Enrollment.organization] refer to the row. *)
Definition delete_Organization (pk : Z) (st : Store) : Store :=
  let st := set_domains_organizations
    (collect Domain.organization_rel (λ d, Domain.organization d = pk)
       (λ d, d) (domains_organizations st)) st in
  let st := set_enrollments
    (collect Enrollment.organization_rel (λ e, Enrollment.organization e = pk)
       (λ e, e) (enrollments st)) st in
  set_organizations
    (filter (λ o, Organization.id o ≠ pk) (organizations st)) st.

(** [UniqueIdentity.delete()]: [Identity.uidentity], [Profile.uidentity] and
    [Enrollment.uidentity] refer to the row. *)
Definition delete_UniqueIdentity (pk : string) (st : Store) : Store :=
  let st := set_identities
    (collect Identity.uidentity_rel (λ i, Identity.uidentity i = pk)
       (λ i, i) (identities st)) st in
  let st := set_profiles
    (collect Profile.uidentity_rel (λ p, Profile.uidentity p = pk)
       (λ p, p) (profiles st)) st in
  let st := set_enrollments
    (collect Enrollment.uidentity_rel (λ e, Enrollment.uidentity e = pk)
       (λ e, e) (enrollments st)) st in
  set_uidentities
    (filter (λ u, UniqueIdentity.uuid u ≠ pk) (uidentities st)) st.

(** [Country.delete()]: [Profile.country] refers to the row. *)
Definition delete_Country (pk : string) (st : Store) : Store :=
  let st := set_profiles
    (collect Profile.country_rel (λ p, Profile.country p = Some pk)
       Profile_null_country (profiles st)) st in
  set_countries (filter (λ c, Country.code c ≠ pk) (countries st)) st.

(** [Context.delete()]: [Transaction.context] refers to the row. *)
Definition delete_Context (pk : string) (st : Store) : Store :=
  let st := set_transactions
    (collect Transaction.context_rel (λ t, Transaction.context t = Some pk)
       Transaction_null_context (transactions st)) st in
  set_contexts (filter (λ c, Context.cuid c ≠ pk) (contexts st)) st.

(** *** Referential integrity *)

(** Every [ForeignKey] and [OneToOneField] of every stored row names a row
    of the table it points to; a nullable one may be null. *)
Definition references_valid (st : Store) : Prop :=
  Forall (λ d, Domain.organization d ∈ Organization.id <$> organizations st)
    (domains_organizations st)
  ∧ Forall (λ i, Identity.uidentity i ∈ UniqueIdentity.uuid <$> uidentities st)
      (identities st)
  ∧ Forall (λ p, Profile.uidentity p ∈ UniqueIdentity.uuid <$> uidentities st
                 ∧ ∀ c, Profile.country p = Some c →
                        c ∈ Country.code <$> countries st)
      (profiles st)
  ∧ Forall (λ e, Enrollment.uidentity e ∈ UniqueIdentity.uuid <$> uidentities st
                 ∧ Enrollment.organization e ∈ Organization.id <$> organizations st)
      (enrollments st)
  ∧ Forall (λ t, ∀ c, Transaction.context t = Some c →
                      c ∈ Context.cuid <$> contexts st)
      (transactions st).

End Models.

(** ** api.py *)

(** The operations of the Entity Store and of the operation API, which
    [schema.py] imports from [.api]. Each operation below is modelled from
    the specification, over the store of [Models] and with the constants
    [models.py] declares. The Context and the Transactions an operation
    records are rows of tables no operation below reads; they are left
    out. Every operation takes [now], the value of [datetime_utcnow()] at
    the call. *)
Module Api.
Import Models.

(** Modelled from the spec: the lookup of a canonical identity by uuid,
    whose implementation is not in the sources. A read of a uuid the store
    does not hold fails with [NotFoundError]. *)
Definition find_unique_identity (st : Store) (uuid : string)
    : result UniqueIdentity.t :=
  match find (λ u, bool_decide (UniqueIdentity.uuid u = uuid)) (uidentities st) with
  | Some u => Ok u
  | None => Err NotFoundError
  end.

(** Modelled from the spec: the lookup of an organization by its unique
    name, whose implementation is not in the sources. *)
Definition find_organization (st : Store) (name : string)
    : result Organization.t :=
  match find (λ o, bool_decide (Organization.name o = name)) (organizations st) with
  | Some o => Ok o
  | None => Err NotFoundError
  end.

(** Modelled from the spec: [create_unique_identity() -> uuid], whose
    implementation is not in the sources. It generates a fresh canonical
    identifier, one no stored UniqueIdentity has, and creates an empty
    Profile for it. *)
Definition create_unique_identity (now : datetime) (st : Store)
    : string * Store :=
  let uuid := fresh (UniqueIdentity.uuid <$> uidentities st) in
  let pk := autofield st + 1 in
  let st := set_uidentities
    (uidentities st ++ [UniqueIdentity.Row now now uuid]) st in
  let st := set_profiles
    (profiles st ++
     [Profile.Row pk now now uuid None None None None false None]) st in
  (uuid, set_autofield pk st).

(** Modelled from the spec: the test that a name, email or username of
    [create_identity] is given and not empty. *)
Definition non_empty (s : option string) : bool :=
  match s with
  | Some s => negb (bool_decide (s = ""))
  | None => false
  end.

(** Modelled from the spec: a stored raw identity has the given (name,
    email, username, source) tuple, the one [create_identity] refuses to
    register twice. *)
Definition same_tuple (source : string) (name email username : option string)
    (i : Identity.t) : Prop :=
  Identity.name i = name ∧ Identity.email i = email
  ∧ Identity.username i = username ∧ Identity.source i = source.

#[global] Instance same_tuple_dec source name email username i :
  Decision (same_tuple source name email username i).
Proof. unfold same_tuple. apply _. Defined.

Section identities.
(** The content hash of (name, email, username, source) that names a raw
    identity; how it is computed is not in the sources. *)
Variable generate_id :
  string → option string → option string → option string → string.

(** Modelled from the spec: [create_identity(source, name?, email?,
    username?, target_uuid?)], whose implementation is not in the
    sources. At least one of name, email and username has to be
    non-empty; a tuple the store already holds is a
    [DuplicateEntityError], and so is any other violation of a declared
    uniqueness, here the primary key; the identity is attached to
    [target_uuid] when given, to a new UniqueIdentity otherwise. *)
Definition create_identity (now : datetime) (st : Store) (source : string)
    (name email username target_uuid : option string)
    : result (Identity.t * Store) :=
  if negb (non_empty name || non_empty email || non_empty username)
  then Err InvalidValueError
  else if bool_decide
            (Exists (same_tuple source name email username) (identities st))
  then Err DuplicateEntityError
  else
    let id_ := generate_id source name email username in
    if bool_decide (id_ ∈ Identity.id <$> identities st)
    then Err DuplicateEntityError
    else
      '(uuid, st) ←
        match target_uuid with
        | Some uuid =>
            u ← find_unique_identity st uuid;
            Ok (UniqueIdentity.uuid u, st)
        | None => Ok (create_unique_identity now st)
        end;
      let identity :=
        Identity.Row now now id_ name email username source uuid in
      Ok (identity, set_identities (identities st ++ [identity]) st).

(** Modelled from the spec: [add_identity(source, name?, email?,
    username?, uuid?)] of the operation API, the call of
    [create_identity] in its Context. *)
Definition add_identity (now : datetime) (st : Store) (source : string)
    (name email username uuid : option string)
    : result (Identity.t * Store) :=
  create_identity now st source name email username uuid.
End identities.

(** Modelled from the spec: an Identity re-parented by
    [merge_unique_identities]; the row is saved, its other columns stay. *)
Definition Identity_reparent (now : datetime) (to_uuid : string)
    (i : Identity.t) : Identity.t :=
  Identity.Row (Identity.created_at i) now (Identity.id i) (Identity.name i)
    (Identity.email i) (Identity.username i) (Identity.source i) to_uuid.

(** Modelled from the spec: an Enrollment re-parented by
    [merge_unique_identities]; the row is saved, its other columns stay. *)
Definition Enrollment_reparent (now : datetime) (to_uuid : string)
    (e : Enrollment.t) : Enrollment.t :=
  Enrollment.Row (Enrollment.id e) (Enrollment.created_at e) now to_uuid
    (Enrollment.organization e) (Enrollment.start e) (Enrollment.end_ e).

(** Modelled from the spec: the merge of one Profile field by
    [merge_unique_identities]. A field of the target profile is kept when
    it is not null and filled from the source profile otherwise. *)
Definition merge_field {A} (to_ from_ : option A) : option A :=
  match to_ with
  | Some v => Some v
  | None => from_
  end.

(** Modelled from the spec: the target Profile after
    [merge_unique_identities]; [is_bot] is never null and is kept. *)
Definition Profile_merge (now : datetime) (from_ : option Profile.t)
    (p : Profile.t) : Profile.t :=
  match from_ with
  | None => p
  | Some f =>
      Profile.Row (Profile.id p) (Profile.created_at p) now
        (Profile.uidentity p)
        (merge_field (Profile.name p) (Profile.name f))
        (merge_field (Profile.email p) (Profile.email f))
        (merge_field (Profile.gender p) (Profile.gender f))
        (merge_field (Profile.gender_acc p) (Profile.gender_acc f))
        (Profile.is_bot p)
        (merge_field (Profile.country p) (Profile.country f))
  end.

(** Modelled from the spec: the uniqueness the Entity Store enforces on
    enrollments, whose enforcement is not in the sources. The key is the
    [unique_together] of [Enrollment] in [models.py]: no two rows of the
    table may have the same (uidentity, organization, start, end). *)
Definition Enrollment_key (e : Enrollment.t)
    : string * Z * datetime * datetime :=
  (Enrollment.uidentity e, Enrollment.organization e,
   Enrollment.start e, Enrollment.end_ e).

Definition unique_enrollments (rows : list Enrollment.t) : Prop :=
  NoDup (Enrollment_key <$> rows).

#[global] Instance unique_enrollments_dec rows :
  Decision (unique_enrollments rows).
Proof. unfold unique_enrollments. apply _. Defined.


(** Modelled from the spec: [merge_unique_identities(from_uuid, to_uuid)],
    whose implementation is not in the sources. It fails with
    [EqualIdentitiesError] when the two are the same and with
    [NotFoundError] when either is missing; it re-parents all Identities
    and Enrollments of [from_uuid] to [to_uuid], fills the null fields of
    the target Profile from the source Profile, then deletes [from_uuid]
    and its Profile. The store refuses a table of enrollments in which two
    rows have the same key, as a re-parented Enrollment that equals one
    the target already has would give: the merge then fails with
    [DuplicateEntityError], the error of a uniqueness violation, and
    nothing changes. *)
Definition merge_unique_identities (now : datetime) (st : Store)
    (from_uuid to_uuid : string) : result Store :=
  if bool_decide (from_uuid = to_uuid) then Err EqualIdentitiesError
  else
    _ ← find_unique_identity st from_uuid;
    _ ← find_unique_identity st to_uuid;
    let from_profile :=
      find (λ p, bool_decide (Profile.uidentity p = from_uuid)) (profiles st) in
    let rows :=
      (λ e, if decide (Enrollment.uidentity e = from_uuid)
            then Enrollment_reparent now to_uuid e else e) <$> enrollments st in
    if bool_decide (unique_enrollments rows) then
      let st := set_identities
        ((λ i, if decide (Identity.uidentity i = from_uuid)
               then Identity_reparent now to_uuid i else i) <$> identities st) st in
      let st := set_enrollments rows st in
      let st := set_profiles
        ((λ p, if decide (Profile.uidentity p = to_uuid)
               then Profile_merge now from_profile p else p) <$> profiles st) st in
      Ok (delete_UniqueIdentity from_uuid st)
    else Err DuplicateEntityError.

(** Modelled from the spec: [merge_identities(from_uuid, to_uuid)] of the
    operation API, the call of [merge_unique_identities] in its Context. *)
Definition merge_identities (now : datetime) (st : Store)
    (from_uuid to_uuid : string) : result Store :=
  merge_unique_identities now st from_uuid to_uuid.

(** Modelled from the spec: [enroll(uuid, org_name, start?, end?)], whose
    implementation is not in the sources. The bounds default to the
    sentinel dates of [models.py]; [start > end] is an
    [InvalidPeriodError]; an interval the pair already has is a
    [DuplicateEntityError]; overlapping intervals are accepted. *)
Definition enroll (now : datetime) (st : Store) (uuid org_name : string)
    (start end_ : option datetime) : result Store :=
  u ← find_unique_identity st uuid;
  o ← find_organization st org_name;
  let start := default MIN_PERIOD_DATE start in
  let end_ := default MAX_PERIOD_DATE end_ in
  if bool_decide (dt_lt end_ start) then Err InvalidPeriodError
  else if bool_decide
            (Exists (λ e, Enrollment.uidentity e = UniqueIdentity.uuid u
                          ∧ Enrollment.organization e = Organization.id o
                          ∧ Enrollment.start e = start
                          ∧ Enrollment.end_ e = end_) (enrollments st))
  then Err DuplicateEntityError
  else
    let pk := autofield st + 1 in
    let e := Enrollment.Row pk now now (UniqueIdentity.uuid u)
               (Organization.id o) start end_ in
    Ok (set_autofield pk (set_enrollments (enrollments st ++ [e]) st)).

(** Modelled from the spec: the enrollments [withdraw] looks at, those of
    the pair whose interval [start, end] meets the window
    [from_date, to_date]. *)
Definition overlaps (uuid : string) (org : Z) (from_date to_date : datetime)
    (e : Enrollment.t) : Prop :=
  Enrollment.uidentity e = uuid ∧ Enrollment.organization e = org
  ∧ dt_le (Enrollment.start e) to_date ∧ dt_le from_date (Enrollment.end_ e).

#[global] Instance overlaps_dec uuid org from_date to_date e :
  Decision (overlaps uuid org from_date to_date e).
Proof. unfold overlaps. apply _. Defined.

(** Modelled from the spec: what one enrollment becomes under [withdraw],
    and the last key handed out. Nothing when the window contains it, two
    new enrollments around the gap when it contains the window, and
    otherwise the enrollment itself, cut back to the part outside the
    window. Whether the rows that come out may stand together in the table
    is for [withdraw] to check. *)
Definition withdraw_enrollment (now : datetime) (uuid : string) (org : Z)
    (from_date to_date : datetime) (e : Enrollment.t) (auto : Z)
    : list Enrollment.t * Z :=
  if decide (overlaps uuid org from_date to_date e) then
    if decide (dt_le from_date (Enrollment.start e)
               ∧ dt_le (Enrollment.end_ e) to_date)
    then ([], auto)
    else if decide (dt_lt (Enrollment.start e) from_date
                    ∧ dt_lt to_date (Enrollment.end_ e))
    then ([ Enrollment.Row (auto + 1) now now uuid org
              (Enrollment.start e) from_date;
            Enrollment.Row (auto + 2) now now uuid org
              to_date (Enrollment.end_ e) ],
          auto + 2)
    else if decide (dt_lt (Enrollment.start e) from_date)
    then ([ Enrollment.Row (Enrollment.id e) (Enrollment.created_at e) now
              uuid org (Enrollment.start e) from_date ], auto)
    else ([ Enrollment.Row (Enrollment.id e) (Enrollment.created_at e) now
              uuid org to_date (Enrollment.end_ e) ], auto)
  else ([e], auto).

(** Modelled from the spec: [withdraw] goes through every enrollment of
    the table. *)
Fixpoint withdraw_enrollments (now : datetime) (uuid : string) (org : Z)
    (from_date to_date : datetime) (rows : list Enrollment.t) (auto : Z)
    : list Enrollment.t * Z :=
  match rows with
  | [] => ([], auto)
  | e :: rows' =>
      let '(out, auto) :=
        withdraw_enrollment now uuid org from_date to_date e auto in
      let '(rest, auto) :=
        withdraw_enrollments now uuid org from_date to_date rows' auto in
      (out ++ rest, auto)
  end.

(** Modelled from the spec: the enrollments of one identity in one
    organization, the pair [withdraw] is called on. *)
Definition of_pair (uuid : string) (org : Z) (e : Enrollment.t) : Prop :=
  Enrollment.uidentity e = uuid ∧ Enrollment.organization e = org.

#[global] Instance of_pair_dec uuid org e : Decision (of_pair uuid org e).
Proof. unfold of_pair. apply _. Defined.

(** Modelled from the spec: [withdraw(uuid, org_name, from_date?,
    to_date?)], whose implementation is not in the sources. The window
    defaults to the full sentinel range; every enrollment of the pair that
    meets the window is deleted, truncated or split. The store refuses a
    table of enrollments in which two rows have the same key, as the
    truncation or the split of two enrollments of the pair can give: the
    withdrawal then fails with [DuplicateEntityError], the error of a
    uniqueness violation, and nothing changes. *)
Definition withdraw (now : datetime) (st : Store) (uuid org_name : string)
    (from_date to_date : option datetime) : result Store :=
  u ← find_unique_identity st uuid;
  o ← find_organization st org_name;
  let from_date := default MIN_PERIOD_DATE from_date in
  let to_date := default MAX_PERIOD_DATE to_date in
  if bool_decide (dt_lt to_date from_date) then Err InvalidPeriodError
  else
    let '(rows, auto) :=
      withdraw_enrollments now (UniqueIdentity.uuid u) (Organization.id o)
        from_date to_date (enrollments st) (autofield st) in
    if bool_decide (unique_enrollments rows)
    then Ok (set_autofield auto (set_enrollments rows st))
    else Err DuplicateEntityError.

End Api.

(** ** schema.py *)

Module Schema.
Import Models.

(** *** Values, model instances and query sets *)

(** The Python values that flow through the resolvers: filter arguments
    and the attributes of model instances. *)
Inductive value :=
  | VNone
  | VStr (s : string)
  | VBool (b : bool)
  | VInt (n : Z)
  | VDate (d : datetime)
  | VBytes (b : list Byte.byte).

#[global] Instance byte_eq_dec : EqDecision Byte.byte := Byte.byte_eq_dec.
#[global] Instance value_eq_dec : EqDecision value.
Proof. solve_decision. Defined.

Definition of_option {A} (inj : A → value) (o : option A) : value :=
  match o with Some a => inj a | None => VNone end.

(** A model instance as the query layer sees it: its attributes by name. *)
Abbreviation instance := (gmap string value).

Definition Organization_instance (o : Organization.t) : instance :=
  list_to_map
    [ ("id", VInt (Organization.id o));
      ("created_at", VDate (Organization.created_at o));
      ("last_modified", VDate (Organization.last_modified o));
      ("name", VStr (Organization.name o)) ].

Definition Domain_instance (d : Domain.t) : instance :=
  list_to_map
    [ ("id", VInt (Domain.id d));
      ("created_at", VDate (Domain.created_at d));
      ("last_modified", VDate (Domain.last_modified d));
      ("domain", VStr (Domain.domain d));
      ("is_top_domain", VBool (Domain.is_top_domain d));
      ("organization", VInt (Domain.organization d)) ].

Definition Country_instance (c : Country.t) : instance :=
  list_to_map
    [ ("created_at", VDate (Country.created_at c));
      ("last_modified", VDate (Country.last_modified c));
      ("code", VStr (Country.code c));
      ("name", VStr (Country.name c));
      ("alpha3", VStr (Country.alpha3 c)) ].

Definition UniqueIdentity_instance (u : UniqueIdentity.t) : instance :=
  list_to_map
    [ ("created_at", VDate (UniqueIdentity.created_at u));
      ("last_modified", VDate (UniqueIdentity.last_modified u));
      ("uuid", VStr (UniqueIdentity.uuid u)) ].

Definition Identity_instance (i : Identity.t) : instance :=
  list_to_map
    [ ("created_at", VDate (Identity.created_at i));
      ("last_modified", VDate (Identity.last_modified i));
      ("id", VStr (Identity.id i));
      ("name", of_option VStr (Identity.name i));
      ("email", of_option VStr (Identity.email i));
      ("username", of_option VStr (Identity.username i));
      ("source", VStr (Identity.source i));
      ("uidentity", VStr (Identity.uidentity i)) ].

Definition Profile_instance (p : Profile.t) : instance :=
  list_to_map
    [ ("id", VInt (Profile.id p));
      ("created_at", VDate (Profile.created_at p));
      ("last_modified", VDate (Profile.last_modified p));
      ("uidentity", VStr (Profile.uidentity p));
      ("name", of_option VStr (Profile.name p));
      ("email", of_option VStr (Profile.email p));
      ("gender", of_option VStr (Profile.gender p));
      ("gender_acc", of_option VInt (Profile.gender_acc p));
      ("is_bot", VBool (Profile.is_bot p));
      ("country", of_option VStr (Profile.country p)) ].

Definition Enrollment_instance (e : Enrollment.t) : instance :=
  list_to_map
    [ ("id", VInt (Enrollment.id e));
      ("created_at", VDate (Enrollment.created_at e));
      ("last_modified", VDate (Enrollment.last_modified e));
      ("uidentity", VStr (Enrollment.uidentity e));
      ("organization", VInt (Enrollment.organization e));
      ("start", VDate (Enrollment.start e));
      ("end", VDate (Enrollment.end_ e)) ].

Definition MatchingBlacklist_instance (b : MatchingBlacklist.t) : instance :=
  list_to_map
    [ ("created_at", VDate (MatchingBlacklist.created_at b));
      ("last_modified", VDate (MatchingBlacklist.last_modified b));
      ("excluded", VStr (MatchingBlacklist.excluded b)) ].

Definition Context_instance (c : Context.t) : instance :=
  list_to_map
    [ ("created_at", VDate (Context.created_at c));
      ("last_modified", VDate (Context.last_modified c));
      ("cuid", VStr (Context.cuid c));
      ("operation", VStr (Context.operation c));
      ("timestamp", VDate (Context.timestamp c)) ].

Definition Transaction_instance (t : Transaction.t) : instance :=
  list_to_map
    [ ("created_at", VDate (Transaction.created_at t));
      ("last_modified", VDate (Transaction.last_modified t));
      ("tuid", VStr (Transaction.tuid t));
      ("operation", VStr (Transaction.operation t));
      ("entity", VStr (Transaction.entity t));
      ("context", of_option VStr (Transaction.context t));
      ("timestamp", VDate (Transaction.timestamp t));
      ("args", VBytes (Transaction.args t)) ].

(** The rows of a model's table, as instances. *)
Definition table (st : Store) (m : model) : list instance :=
  match db_table m with
  | "organizations" => Organization_instance <$> organizations st
  | "domains_organizations" => Domain_instance <$> domains_organizations st
  | "countries" => Country_instance <$> countries st
  | "uidentities" => UniqueIdentity_instance <$> uidentities st
  | "identities" => Identity_instance <$> identities st
  | "profiles" => Profile_instance <$> profiles st
  | "enrollments" => Enrollment_instance <$> enrollments st
  | "matching_blacklist" => MatchingBlacklist_instance <$> matching_blacklist st
  | "contexts" => Context_instance <$> contexts st
  | "transactions" => Transaction_instance <$> transactions st
  | _ => []
  end.

(** A Django [QuerySet]: the model it ranges over and, in order, the
    instances it evaluates to. *)
Record QuerySet := MkQuerySet {
  qs_model : model;
  qs_list : list instance
}.

(** [X.objects] for a name [X] the module imports from [.models]. Python
    binds the name when the import statement at the top of the module
    runs, which [import_from] below follows; here the name is resolved
    where a resolver uses it, so that each resolver can be looked at on
    its own. A name [models.py] does not bind is an [ImportError]. *)
Definition objects (st : Store) (name : string) : result QuerySet :=
  match find_model name with
  | None => Err (ImportError name)
  | Some m => Ok (MkQuerySet m (table st m))
  end.

(** The order of column values: null first, then by value. *)
Definition value_leb (a b : value) : bool :=
  match a, b with
  | VNone, _ => true
  | _, VNone => false
  | VStr x, VStr y => String.leb x y
  | VBool x, VBool y => implb x y
  | VInt x, VInt y => x <=? y
  | VDate x, VDate y => instant x <=? instant y
  | _, _ => true
  end.

Definition attr (i : instance) (name : string) : value :=
  default VNone (i !! name).

Fixpoint insert_sorted (key : instance → value) (x : instance)
    (l : list instance) : list instance :=
  match l with
  | [] => [x]
  | y :: l' =>
      if value_leb (key x) (key y) then x :: l
      else y :: insert_sorted key x l'
  end.

(** [query.order_by(name)], a stable sort on one column. *)
Definition order_by (name : string) (q : QuerySet) : QuerySet :=
  MkQuerySet (qs_model q)
    (foldr (insert_sorted (λ i, attr i name)) [] (qs_list q)).

Definition ascii_lower (c : Ascii.ascii) : Ascii.ascii :=
  let n := Ascii.N_of_ascii c in
  if ((65 <=? n) && (n <=? 90))%N then Ascii.ascii_of_N (n + 32) else c.

Fixpoint lower (s : string) : string :=
  match s with
  | EmptyString => EmptyString
  | String c s' => String (ascii_lower c) (lower s')
  end.

Definition relation_of (f : field) : option relation :=
  match ftype f with
  | ForeignKey r | OneToOneField r => Some r
  | _ => None
  end.

(** The names under which other models reach [m] through a relation:
    the [related_name], or the lower-cased name of the referring model. *)
Definition reverse_names (m : model) : list string :=
  m' ← models;
  f ← fields m';
  match relation_of f with
  | Some r =>
      if bool_decide (to r = model_name m)
      then [default (lower (model_name m')) (related_name r)]
      else []
  | None => []
  end.

(** The keywords [filter] resolves on a model: its fields, [pk], the
    [_id] column of each relation, and the reverse relations. Anything
    else raises [FieldError] when [filter] is called. *)
Definition lookup_names (m : model) : list string :=
  (fname <$> fields m) ++ ["pk"]
  ++ (f ← fields m;
      match relation_of f with Some _ => [fname f +:+ "_id"] | None => [] end)
  ++ reverse_names m.

Inductive lookup := Exact | Gte | Lte.

Definition matches (lk : lookup) (a v : value) : bool :=
  match lk with
  | Exact => bool_decide (a = v)
  | Gte =>
      match a, v with
      | VDate x, VDate y => instant y <=? instant x
      | _, _ => false
      end
  | Lte =>
      match a, v with
      | VDate x, VDate y => instant x <=? instant y
      | _, _ => false
      end
  end.

(** [query.filter(name=v)], [query.filter(name__gte=v)] and
    [query.filter(name__lte=v)]. The keyword is resolved against the model
    when [filter] is called; the resolvers below only filter on columns of
    the model itself, which is what the selection covers. *)
Definition filter_by (name : string) (lk : lookup) (v : value)
    (q : QuerySet) : result QuerySet :=
  if bool_decide (name ∈ lookup_names (qs_model q)) then
    Ok (MkQuerySet (qs_model q)
          (filter (λ i, matches lk (attr i name) v = true) (qs_list q)))
  else Err (FieldError name).

(** *** django.core.paginator *)

Module Paginator.

(** [Paginator(object_list, per_page)], with the defaults [orphans=0] and
    [allow_empty_first_page=True]. *)
Record t := Make {
  object_list : list instance;
  per_page : Z;
  orphans : Z;
  allow_empty_first_page : bool
}.

Definition count (p : t) : Z := Z.of_nat (length (object_list p)).

(** [ceil(hits / per_page)] for integers and a divisor other than zero. *)
Definition ceil_div (a b : Z) : Z := - ((- a) / b).

Definition num_pages (p : t) : result Z :=
  if (count p =? 0) && negb (allow_empty_first_page p) then Ok 0
  else
    let hits := Z.max 1 (count p - orphans p) in
    if per_page p =? 0 then Err ZeroDivisionError
    else Ok (ceil_div hits (per_page p)).

Definition validate_number (p : t) (number : Z) : result Z :=
  if number <? 1 then Err EmptyPage
  else
    n ← num_pages p;
    if n <? number then
      if (number =? 1) && allow_empty_first_page p then Ok number
      else Err EmptyPage
    else Ok number.

(** [object_list[bottom:top]] on a query set, which refuses negative
    bounds. *)
Definition slice (l : list instance) (bottom top : Z) : result (list instance) :=
  if (bottom <? 0) || (top <? 0) then Err NegativeIndexing
  else Ok (drop (Z.to_nat bottom) (take (Z.to_nat top) l)).

Record Page := MkPage {
  page_object_list : list instance;
  number : Z;
  paginator : t
}.

Definition page (p : t) (number : Z) : result Page :=
  number ← validate_number p number;
  let bottom := (number - 1) * per_page p in
  let top := bottom + per_page p in
  let top := if count p <=? top + orphans p then count p else top in
  l ← slice (object_list p) bottom top;
  Ok (MkPage l number p).

Definition has_next (pg : Page) : result bool :=
  n ← num_pages (paginator pg);
  Ok (number pg <? n).

Definition has_previous (pg : Page) : bool := 1 <? number pg.

Definition start_index (pg : Page) : Z :=
  if count (paginator pg) =? 0 then 0
  else per_page (paginator pg) * (number pg - 1) + 1.

Definition end_index (pg : Page) : result Z :=
  n ← num_pages (paginator pg);
  Ok (if number pg =? n then count (paginator pg)
      else number pg * per_page (paginator pg)).

End Paginator.

(** *** Paginated types *)

Record PaginationType := MkPaginationType {
  page : Z;
  page_size : Z;
  num_pages : Z;
  has_next : bool;
  has_prev : bool;
  start_index : Z;
  end_index : Z;
  total_results : Z
}.

(** [AbstractPaginatedType] and its four subclasses, which differ in the
    type of the entities only. *)
Record PaginatedType := MkPaginatedType {
  entities : list instance;
  page_info : PaginationType
}.

Definition create_paginated_result (query : QuerySet) (page page_size : Z)
    : result PaginatedType :=
  let paginator := Paginator.Make (qs_list query) page_size 0 true in
  result ← Paginator.page paginator page;
  let entities := Paginator.page_object_list result in
  num_pages ← Paginator.num_pages paginator;
  has_next ← Paginator.has_next result;
  end_index ← Paginator.end_index result;
  let page_info :=
    MkPaginationType
      (Paginator.number result)
      page_size
      num_pages
      has_next
      (Paginator.has_previous result)
      (Paginator.start_index result)
      end_index
      (Z.of_nat (length (qs_list query))) in
  Ok (MkPaginatedType entities page_info).

(** *** Resolvers *)

(** The [filters] argument: absent, or a mapping from key to value. *)
Abbreviation filters_arg := (option (gmap string value)).

(** [filters and key in filters] *)
Definition has_filter (filters : filters_arg) (key : string) : bool :=
  match filters with
  | None => false
  | Some f => negb (bool_decide (f = ∅)) && bool_decide (is_Some (f !! key))
  end.

(** [filters[key]] *)
Definition getitem (filters : filters_arg) (key : string) : result value :=
  match filters with
  | None => Err (KeyError key)
  | Some f =>
      match f !! key with
      | Some v => Ok v
      | None => Err (KeyError key)
      end
  end.

(** The names [schema.py] imports from [.models]. *)
Definition models_imports : list string :=
  [ "Organization"; "Domain"; "Country"; "UniqueIdentity"; "Identity";
    "Profile"; "Enrollment"; "Transaction"; "Operation" ].

(** [from .models import (...)]: the first name the module does not bind
    raises [ImportError]. *)
Fixpoint import_from (namespace names : list string) : result unit :=
  match names with
  | [] => Ok ()
  | n :: names' =>
      if bool_decide (n ∈ namespace) then import_from namespace names'
      else Err (ImportError n)
  end.

Section resolvers.
(** [settings.DEFAULT_GRAPHQL_PAGE_SIZE] *)
Variable DEFAULT_GRAPHQL_PAGE_SIZE : Z.

(** An argument the caller may omit, with its default. *)
Definition or_default (arg : option Z) (d : Z) : Z := default d arg.

Definition resolve_organizations (st : Store) (filters : filters_arg)
    (page page_size : option Z) : result PaginatedType :=
  let page := or_default page 1 in
  let page_size := or_default page_size DEFAULT_GRAPHQL_PAGE_SIZE in
  query ← order_by "name" <$> objects st "Organization";
  query ←
    (if has_filter filters "name" then
       v ← getitem filters "name"; filter_by "name" Exact v query
     else Ok query);
  create_paginated_result query page page_size.

Definition resolve_uidentities (st : Store) (filters : filters_arg)
    (page page_size : option Z) : result PaginatedType :=
  let page := or_default page 1 in
  let page_size := or_default page_size DEFAULT_GRAPHQL_PAGE_SIZE in
  query ← order_by "uuid" <$> objects st "UniqueIdentity";
  query ←
    (if has_filter filters "uuid" then
       v ← getitem filters "uuid"; filter_by "uuid" Exact v query
     else Ok query);
  create_paginated_result query page page_size.

Definition resolve_transactions (st : Store) (filters : filters_arg)
    (page page_size : option Z) : result PaginatedType :=
  let page := or_default page 1 in
  let page_size := or_default page_size DEFAULT_GRAPHQL_PAGE_SIZE in
  query ← order_by "created_at" <$> objects st "Transaction";
  query ←
    (if has_filter filters "tuid" then
       v ← getitem filters "tuid"; filter_by "tuid" Exact v query
     else Ok query);
  query ←
    (if has_filter filters "name" then
       v ← getitem filters "name"; filter_by "name" Exact v query
     else Ok query);
  query ←
    (if has_filter filters "is_closed" then
       v ← getitem filters "isClosed"; filter_by "is_closed" Exact v query
     else Ok query);
  query ←
    (if has_filter filters "from_date" then
       v ← getitem filters "from_date"; filter_by "created_at" Gte v query
     else Ok query);
  query ←
    (if has_filter filters "to_date" then
       v ← getitem filters "to_date"; filter_by "created_at" Lte v query
     else Ok query);
  create_paginated_result query page page_size.

Definition resolve_operations (st : Store) (filters : filters_arg)
    (page page_size : option Z) : result PaginatedType :=
  let page := or_default page 1 in
  let page_size := or_default page_size DEFAULT_GRAPHQL_PAGE_SIZE in
  query ← order_by "timestamp" <$> objects st "Operation";
  query ←
    (if has_filter filters "ouid" then
       v ← getitem filters "ouid"; filter_by "ouid" Exact v query
     else Ok query);
  query ←
    (if has_filter filters "op_type" then
       v ← getitem filters "op_type"; filter_by "op_type" Exact v query
     else Ok query);
  query ←
    (if has_filter filters "entity_type" then
       v ← getitem filters "entity_type";
       filter_by "entity_type" Exact v query
     else Ok query);
  query ←
    (if has_filter filters "target" then
       v ← getitem filters "target"; filter_by "target" Exact v query
     else Ok query);
  query ←
    (if has_filter filters "from_date" then
       v ← getitem filters "from_date"; filter_by "timestamp" Gte v query
     else Ok query);
  query ←
    (if has_filter filters "to_date" then
       v ← getitem filters "to_date"; filter_by "timestamp" Lte v query
     else Ok query);
  create_paginated_result query page page_size.
End resolvers.

(** *** Mutations *)

(** A mutation class: the arguments its [class Arguments] declares, and
    the parameters of its [mutate] method after [self] and [info], each
    with its default when it has one. No [mutate] takes [**kwargs]. *)
Record Mutation := MkMutation {
  mutation_name : string;
  arguments : list string;
  parameters : list (string * option value)
}.

Definition AddOrganization : Mutation :=
  MkMutation "AddOrganization" ["name"] [("name", None)].

Definition DeleteOrganization : Mutation :=
  MkMutation "DeleteOrganization" ["name"] [("name", None)].

Definition AddDomain : Mutation :=
  MkMutation "AddDomain" ["organization"; "domain"; "is_top_domain"]
    [("organization", None); ("domain", None);
     ("is_top_domain", Some (VBool false))].

Definition DeleteDomain : Mutation :=
  MkMutation "DeleteDomain" ["domain"] [("domain", None)].

Definition AddIdentity : Mutation :=
  MkMutation "AddIdentity" ["source"; "name"; "email"; "username"; "uuid"]
    [("source", None); ("name", Some VNone); ("email", Some VNone);
     ("username", Some VNone); ("uuid", Some VNone)].

Definition DeleteIdentity : Mutation :=
  MkMutation "DeleteIdentity" ["uuid"; "unique_identity"] [("uuid", None)].

Definition UpdateProfile : Mutation :=
  MkMutation "UpdateProfile" ["uuid"; "data"] [("uuid", None); ("data", None)].

Definition MoveIdentity : Mutation :=
  MkMutation "MoveIdentity" ["from_id"; "to_uuid"]
    [("from_id", None); ("to_uuid", None)].

Definition MergeIdentities : Mutation :=
  MkMutation "MergeIdentities" ["from_uuid"; "to_uuid"]
    [("from_uuid", None); ("to_uuid", None)].

Definition Enroll : Mutation :=
  MkMutation "Enroll" ["uuid"; "organization"; "from_date"; "to_date"]
    [("uuid", None); ("organization", None);
     ("from_date", Some VNone); ("to_date", Some VNone)].

Definition Withdraw : Mutation :=
  MkMutation "Withdraw" ["uuid"; "organization"; "from_date"; "to_date"]
    [("uuid", None); ("organization", None);
     ("from_date", Some VNone); ("to_date", Some VNone)].

(** The mutations of [SortingHatMutation]. *)
Definition SortingHatMutation : list Mutation :=
  [ AddOrganization; DeleteOrganization; AddDomain; DeleteDomain;
    AddIdentity; DeleteIdentity; UpdateProfile; MoveIdentity;
    MergeIdentities; Enroll; Withdraw ].

(** The outcome of calling [mutate(root, info, **kwargs)]: the values its
    parameters are bound to, or the [TypeError] Python raises when a
    keyword names no parameter or a parameter without a default gets no
    value. *)
Inductive call :=
  | Bound (args : gmap string value)
  | TypeError.

(** The call graphene makes for a mutation field: the arguments the
    request gives are passed to [mutate] by keyword. *)
Definition call_mutate (m : Mutation) (kwargs : gmap string value) : call :=
  if bool_decide (Forall (λ k, k ∈ (parameters m).*1) (map_to_list kwargs).*1)
     && bool_decide (Forall (λ p, p.2 = None → is_Some (kwargs !! p.1))
                       (parameters m))
  then Bound (list_to_map
                ((λ p, (p.1, default (default VNone p.2) (kwargs !! p.1)))
                   <$> parameters m))
  else TypeError.

End Schema.

(** ** Sample data *)

Import Models Api Schema.

(** The declaration of [Country.name]. *)
Definition Country_name : field :=
  Field "name" (CharField MAX_SIZE_CHAR_INDEX) false false.

(** A transaction as the query layer sees it, cut down to its [tuid]. *)
Definition one_instance : instance := {[ "tuid" := VStr "t1" ]}.

Definition sample_now : datetime := Datetime 2019 3 1 12 0 0 0.

(** A stand-in for the content hash of a raw identity. *)
Definition sample_generate_id (source : string) (name email username : option string)
    : string :=
  source +:+ ":" +:+ default "" name +:+ ":" +:+ default "" email
  +:+ ":" +:+ default "" username.

(** The organization Acme and the identities U1 and U2. *)
Definition sample_store : Store :=
  set_organizations [Organization.Row 1 sample_now sample_now "Acme"]
    (set_uidentities [UniqueIdentity.Row sample_now sample_now "U1";
                      UniqueIdentity.Row sample_now sample_now "U2"]
       (set_autofield 1 empty_store)).

(** U1 has one raw identity, one enrollment and a profile named Alice;
    U2 has one raw identity and the profile of a bot without a name. *)
Definition sample_merge_store : Store :=
  set_identities
    [ Identity.Row sample_now sample_now "i1" (Some "Alice") None None "git" "U1";
      Identity.Row sample_now sample_now "i2" (Some "Alice B") None None "git" "U2" ]
    (set_enrollments
       [ Enrollment.Row 2 sample_now sample_now "U1" 1
           MIN_PERIOD_DATE MAX_PERIOD_DATE ]
       (set_profiles
          [ Profile.Row 3 sample_now sample_now "U1"
              (Some "Alice") None None None false None;
            Profile.Row 4 sample_now sample_now "U2"
              None None None None true None ]
          (set_autofield 4 sample_store))).


Definition sample_year (y : Z) : datetime := Datetime y 1 1 0 0 0 0.

Definition sample_enrollment (pk : Z) (from_year to_year : Z) : Enrollment.t :=
  Enrollment.Row pk sample_now sample_now "U1" 1
    (sample_year from_year) (sample_year to_year).


(** U1 has two enrollments in Acme that start together, 2000-2010 and
    2000-2003. *)
Definition sample_same_start : Store :=
  set_enrollments
    [ sample_enrollment 2 2000 2010; sample_enrollment 3 2000 2003 ]
    (set_autofield 3 sample_store).

Definition sample_transaction (tuid : string) (day : Z) : Transaction.t :=
  Transaction.Row (Datetime 2019 3 day 0 0 0 0) sample_now tuid
    "add" "uid" None sample_now [].

(** Three transactions, created on the 3rd, the 1st and the 2nd of March. *)
Definition sample_transactions : Store :=
  set_transactions
    [ sample_transaction "t3" 3; sample_transaction "t1" 1;
      sample_transaction "t2" 2 ]
    empty_store.

(** * Properties *)

(** ** Dates *)

(** The two sentinel dates are 2208988800 seconds before and 4102444800
    seconds after the epoch. *)
Example sentinel_instants :
  instant (Datetime 1970 1 1 0 0 0 0) = 0
  ∧ instant MIN_PERIOD_DATE = -2208988800 * 1000000
  ∧ instant MAX_PERIOD_DATE = 4102444800 * 1000000
  ∧ dt_lt MIN_PERIOD_DATE MAX_PERIOD_DATE.
Proof. repeat split. Qed.

(** ** Column sizes *)

Lemma Country_name_char_field :
  (Country.meta, Country_name, 191) ∈ char_fields.
Proof. apply (bool_decide_unpack _). by vm_compute. Qed.

(** C7, as stated, fails: [Country.name] is a plain text column, neither
    the primary key of [Country] nor part of its [unique_together], and
    its [max_length] is [MAX_SIZE_CHAR_INDEX = 191], above 128. *)
Lemma char_field_sizes_counterexample :
  ¬ (∀ m f n, (m, f, n) ∈ char_fields →
       (is_key m f = true → n <= 191) ∧ (is_key m f = false → n <= 128)).
Proof.
  intros H.
  destruct (H _ _ _ Country_name_char_field) as [_ Hplain].
  specialize (Hplain eq_refl). lia.
Qed.

(** C7, amended: every [CharField] of every model is constrained to at
    most [MAX_SIZE_CHAR_INDEX = 191] characters, and every [CharField]
    that is not a key, other than [Country.name], to at most
    [MAX_SIZE_CHAR_FIELD = 128] characters. *)
Theorem char_field_sizes (m : model) (f : field) (n : Z) :
  (m, f, n) ∈ char_fields →
  n <= MAX_SIZE_CHAR_INDEX
  ∧ (is_key m f = false →
     (model_name m, fname f) ≠ ("Country", "name") →
     n <= MAX_SIZE_CHAR_FIELD).
Proof.
  revert m f n.
  cut (Forall (λ x : model * field * Z,
         x.2 <= MAX_SIZE_CHAR_INDEX
         ∧ (is_key x.1.1 x.1.2 = false →
            (model_name x.1.1, fname x.1.2) ≠ ("Country", "name") →
            x.2 <= MAX_SIZE_CHAR_FIELD)) char_fields).
  { intros HF m f n Hin. rewrite Forall_forall in HF. exact (HF _ Hin). }
  apply (bool_decide_unpack _). by vm_compute.
Qed.

Lemma char_field_sizes_witness :
  (Country.meta, Country_name, 191) ∈ char_fields
  ∧ 191 <= MAX_SIZE_CHAR_INDEX.
Proof.
  split; [exact Country_name_char_field|].
  exact (proj1 (char_field_sizes _ _ _ Country_name_char_field)).
Defined.

(** ** Deleting rows *)

Lemma collect_cascade {A} (r : relation) (refers : A → Prop)
    `{!∀ x, Decision (refers x)} (set_null : A → A) (rows : list A) :
  on_delete r = CASCADE →
  collect r refers set_null rows = filter (λ x, ¬ refers x) rows.
Proof. unfold collect. by intros ->. Qed.

Lemma collect_set_null {A} (r : relation) (refers : A → Prop)
    `{!∀ x, Decision (refers x)} (set_null : A → A) (rows : list A) :
  on_delete r = SET_NULL →
  collect r refers set_null rows
  = (λ x, if decide (refers x) then set_null x else x) <$> rows.
Proof. unfold collect. by intros ->. Qed.

(** C4: deleting a Context deletes no Transaction. The transactions table
    keeps its rows, in place; a row that referred to the Context has its
    [context] set to null, any other row keeps its [context], and [tuid],
    [operation], [entity], [timestamp] and [args] (and the two dates of
    [ModelBase]) are those it had. *)
Theorem delete_Context_keeps_transactions (st : Store) (cuid : string) :
  Forall2
    (λ t t',
       Transaction.tuid t' = Transaction.tuid t
       ∧ Transaction.operation t' = Transaction.operation t
       ∧ Transaction.entity t' = Transaction.entity t
       ∧ Transaction.timestamp t' = Transaction.timestamp t
       ∧ Transaction.args t' = Transaction.args t
       ∧ Transaction.created_at t' = Transaction.created_at t
       ∧ Transaction.last_modified t' = Transaction.last_modified t
       ∧ Transaction.context t'
         = (if decide (Transaction.context t = Some cuid) then None
            else Transaction.context t))
    (transactions st) (transactions (delete_Context cuid st))
  ∧ Forall (λ c, Context.cuid c ≠ cuid) (contexts (delete_Context cuid st)).
Proof.
  split.
  - unfold delete_Context. cbn [transactions set_contexts set_transactions].
    rewrite collect_set_null by reflexivity.
    induction (transactions st) as [|t l IH]; [constructor|].
    rewrite fmap_cons. constructor; [|exact IH].
    destruct (decide (Transaction.context t = Some cuid)); by repeat split.
  - unfold delete_Context. cbn [contexts set_contexts set_transactions].
    apply Forall_forall. intros c Hc.
    apply list_elem_of_filter in Hc. tauto.
Qed.

(** C6: deleting an Organization deletes every Domain and every
    Enrollment that belongs to it and the Organization itself; the Domains
    and Enrollments of other Organizations stay, unchanged and in order. *)
Theorem delete_Organization_cascades (st : Store) (pk : Z) :
  let st' := delete_Organization pk st in
  domains_organizations st'
  = filter (λ d, Domain.organization d ≠ pk) (domains_organizations st)
  ∧ enrollments st'
    = filter (λ e, Enrollment.organization e ≠ pk) (enrollments st)
  ∧ (∀ d, d ∈ domains_organizations st' ↔
          d ∈ domains_organizations st ∧ Domain.organization d ≠ pk)
  ∧ (∀ e, e ∈ enrollments st' ↔
          e ∈ enrollments st ∧ Enrollment.organization e ≠ pk)
  ∧ (∀ o, o ∈ organizations st' ↔
          o ∈ organizations st ∧ Organization.id o ≠ pk).
Proof.
  unfold delete_Organization.
  cbn [domains_organizations enrollments organizations set_organizations
       set_enrollments set_domains_organizations].
  rewrite !collect_cascade by reflexivity.
  split; [reflexivity|]. split; [reflexivity|].
  split; [|split]; intros x; rewrite list_elem_of_filter; tauto.
Qed.

(** ** Pagination *)

Lemma num_pages_default (l : list instance) (ps : Z) :
  Paginator.num_pages (Paginator.Make l ps 0 true)
  = if ps =? 0 then Err ZeroDivisionError
    else Ok (Paginator.ceil_div (Z.max 1 (Z.of_nat (length l))) ps).
Proof.
  unfold Paginator.num_pages, Paginator.count.
  cbn [Paginator.object_list Paginator.per_page Paginator.orphans
       Paginator.allow_empty_first_page negb].
  by rewrite andb_false_r, Z.sub_0_r.
Qed.

(** A page number is below the number of pages exactly when results are
    left after that page. *)
Lemma lt_ceil_div (n h ps : Z) :
  0 < ps → (n < Paginator.ceil_div h ps ↔ n * ps < h).
Proof.
  intros Hps. unfold Paginator.ceil_div.
  pose proof (Z.div_mod (- h) ps ltac:(lia)) as Hdm.
  pose proof (Z.mod_pos_bound (- h) ps Hps) as Hmod.
  split; intros H; nia.
Qed.

Lemma ceil_div_neg (h ps : Z) : 0 < h → ps < 0 → Paginator.ceil_div h ps <= 0.
Proof.
  intros Hh Hps. unfold Paginator.ceil_div.
  pose proof (Z.div_mod (- h) ps ltac:(lia)) as Hdm.
  pose proof (Z.mod_neg_bound (- h) ps Hps) as Hmod.
  nia.
Qed.

(** What [Paginator.page] returns, for the paginator
    [create_paginated_result] builds. *)
Lemma page_default (l : list instance) (ps num : Z) (pg : Paginator.Page) :
  Paginator.page (Paginator.Make l ps 0 true) num = Ok pg →
  1 <= num ∧ 1 <= ps
  ∧ pg = Paginator.MkPage
           (drop (Z.to_nat ((num - 1) * ps)) (take (Z.to_nat (num * ps)) l))
           num (Paginator.Make l ps 0 true).
Proof.
  unfold Paginator.page, Paginator.validate_number.
  rewrite num_pages_default.
  unfold Paginator.count, Paginator.slice.
  cbn [Paginator.object_list Paginator.per_page Paginator.orphans
       Paginator.allow_empty_first_page].
  destruct (Z.ltb_spec num 1) as [|Hnum]; [discriminate|].
  destruct (Z.eqb_spec ps 0) as [|Hps]; [discriminate|].
  cbn [mbind result_bind].
  set (total := Z.of_nat (length l)).
  assert (0 <= total) as Htotal by (unfold total; lia).
  set (n := Paginator.ceil_div (Z.max 1 total) ps).
  assert (ps < 0 → n <= 0) as Hneg.
  { intros. apply ceil_div_neg; lia. }
  rewrite andb_true_r.
  destruct (Z.ltb_spec n num) as [Hn|Hn].
  - destruct (Z.eqb_spec num 1) as [->|]; [|discriminate].
    cbn [mbind result_bind].
    replace ((1 - 1) * ps) with 0 by lia.
    rewrite Z.add_0_r, Z.add_0_l, Z.mul_1_l.
    destruct (Z.leb_spec total ps) as [Hle|Hle].
    + cbn [Z.ltb Z.compare orb].
      destruct (Z.ltb_spec total 0); [lia|].
      intros [= <-]. split; [lia|]. split; [lia|].
      f_equal. f_equal. rewrite !firstn_all2; [done| |]; unfold total in *; lia.
    + cbn [Z.ltb Z.compare orb].
      destruct (Z.ltb_spec ps 0) as [|Hps0]; [discriminate|].
      assert (0 < ps) as Hpos by lia.
      pose proof (proj2 (lt_ceil_div 1 (Z.max 1 total) ps Hpos)) as Hlt.
      fold n in Hlt. lia.
  - cbn [mbind result_bind]. rewrite Z.add_0_r.
    assert (0 < ps) as Hpos.
    { destruct (Z.lt_trichotomy ps 0) as [?|[?|?]]; lia. }
    destruct (Z.leb_spec total ((num - 1) * ps + ps)) as [Hle|Hle].
    + destruct (Z.ltb_spec ((num - 1) * ps) 0); [nia|].
      destruct (Z.ltb_spec total 0); [lia|].
      cbn [orb]. intros [= <-]. split; [lia|]. split; [lia|].
      f_equal. f_equal. rewrite !firstn_all2; [done| |]; unfold total in *; lia.
    + destruct (Z.ltb_spec ((num - 1) * ps) 0); [nia|].
      destruct (Z.ltb_spec ((num - 1) * ps + ps) 0); [nia|].
      cbn [orb]. intros [= <-]. split; [lia|]. split; [lia|].
      do 3 f_equal. lia.
Qed.

(** C8: the page that [create_paginated_result] returns reports, as
    [total_results], the size of the query set it was given; [has_prev]
    says whether the page is after the first, and [has_next] whether
    results are left after [page * page_size] of that total. The page
    number and size are positive, and the entities are those of that
    window of the query set. *)
Theorem create_paginated_result_page_info (query : QuerySet)
    (page page_size : Z) (r : PaginatedType) :
  create_paginated_result query page page_size = Ok r →
  let total := Z.of_nat (length (qs_list query)) in
  1 <= page ∧ 1 <= page_size
  ∧ total_results (page_info r) = total
  ∧ Schema.page (page_info r) = page
  ∧ Schema.page_size (page_info r) = page_size
  ∧ has_prev (page_info r) = bool_decide (1 < page)
  ∧ has_next (page_info r) = bool_decide (page * page_size < total)
  ∧ entities r
    = drop (Z.to_nat ((page - 1) * page_size))
        (take (Z.to_nat (page * page_size)) (qs_list query)).
Proof.
  intros H total.
  unfold create_paginated_result in H.
  destruct (Paginator.page _ page) as [pg|] eqn:Hpg; [|discriminate].
  apply page_default in Hpg as (Hpage & Hsize & ->).
  cbn [mbind result_bind] in H.
  unfold Paginator.has_next, Paginator.end_index in H.
  cbn [Paginator.paginator Paginator.number Paginator.page_object_list] in H.
  rewrite num_pages_default in H.
  destruct (Z.eqb_spec page_size 0); [lia|].
  cbn [mbind result_bind] in H.
  injection H as <-.
  cbn [page_info entities total_results Schema.page Schema.page_size
       has_prev has_next].
  repeat split; try lia.
  - unfold Paginator.has_previous. cbn [Paginator.number].
    destruct (Z.ltb_spec 1 page).
    + by rewrite bool_decide_eq_true_2.
    + by rewrite bool_decide_eq_false_2 by lia.
  - pose proof (lt_ceil_div page (Z.max 1 total) page_size ltac:(lia)) as Hlt.
    fold total.
    destruct (Z.ltb_spec page (Paginator.ceil_div (Z.max 1 total) page_size)).
    + rewrite bool_decide_eq_true_2; [done|]. nia.
    + rewrite bool_decide_eq_false_2; [done|]. nia.
Qed.

Lemma create_paginated_result_page_info_witness :
  let query := MkQuerySet Transaction.meta [one_instance; one_instance; one_instance] in
  ∃ r, create_paginated_result query 1 2 = Ok r
       ∧ total_results (page_info r) = 3
       ∧ has_prev (page_info r) = false
       ∧ has_next (page_info r) = true.
Proof.
  intros query.
  destruct (create_paginated_result query 1 2) as [r|] eqn:E;
    [|by vm_compute in E].
  exists r. split; [reflexivity|].
  destruct (create_paginated_result_page_info query 1 2 r E)
    as (_ & _ & Ht & _ & _ & Hp & Hn & _).
  rewrite Ht, Hp, Hn. by vm_compute.
Defined.

(** Whenever the page exists, [create_paginated_result] returns it. *)
Lemma create_paginated_result_returns (query : QuerySet) (page page_size : Z) :
  1 <= page → 1 <= page_size →
  (page - 1) * page_size < Z.max 1 (Z.of_nat (length (qs_list query))) →
  is_ok (create_paginated_result query page page_size) = true.
Proof.
  intros Hp Hs Hlt.
  unfold create_paginated_result, Paginator.page, Paginator.validate_number,
    Paginator.has_next, Paginator.end_index, Paginator.slice, Paginator.count.
  rewrite num_pages_default.
  cbn [Paginator.object_list Paginator.per_page Paginator.orphans
       Paginator.allow_empty_first_page].
  destruct (Z.ltb_spec page 1); [lia|].
  destruct (Z.eqb_spec page_size 0); [lia|].
  cbn [mbind result_bind].
  set (total := Z.of_nat (length (qs_list query))) in *.
  assert (0 <= total) by (unfold total; lia).
  pose proof (lt_ceil_div (page - 1) (Z.max 1 total) page_size ltac:(lia)) as Hc.
  destruct (Z.ltb_spec (Paginator.ceil_div (Z.max 1 total) page_size) page);
    [lia|].
  cbn [mbind result_bind]. rewrite Z.add_0_r.
  destruct (Z.ltb_spec ((page - 1) * page_size) 0); [nia|].
  destruct (Z.leb_spec total ((page - 1) * page_size + page_size)).
  - destruct (Z.ltb_spec total 0); [lia|].
    cbn [orb mbind result_bind Paginator.paginator].
    rewrite num_pages_default.
    destruct (Z.eqb_spec page_size 0); [lia|]. reflexivity.
  - destruct (Z.ltb_spec ((page - 1) * page_size + page_size) 0); [nia|].
    cbn [orb mbind result_bind Paginator.paginator].
    rewrite num_pages_default.
    destruct (Z.eqb_spec page_size 0); [lia|]. reflexivity.
Qed.

(** ** The operations query *)

(** C9: [schema.py] imports [Operation] from [.models] and builds the
    operations query on it, but [models.py] binds no such name: its
    provenance models are [Context] and [Transaction], and no model it
    defines resolves [ouid], [op_type], [entity_type] or [target]. The
    import raises [ImportError], and so does [resolve_operations] on every
    store, filter, page and page size. *)
Theorem resolve_operations_unresolved :
("Operation" ∈ models_imports)
  ∧ ("Operation" ∉ namespace)
  ∧ find_model "Operation" = None
  ∧ find_model "Context" = Some Context.meta
  ∧ find_model "Transaction" = Some Transaction.meta
  ∧ Forall (λ m, Forall (λ k, k ∉ lookup_names m)
                   ["ouid"; "op_type"; "entity_type"; "target"]) models
  ∧ import_from namespace models_imports = Err (ImportError "Operation")
  ∧ ∀ (default_page_size : Z) (st : Store) (filters : filters_arg)
      (page page_size : option Z),
      resolve_operations default_page_size st filters page page_size
      = Err (ImportError "Operation").
Proof.
  split; [apply (bool_decide_unpack _); by vm_compute|].
  split; [apply (bool_decide_unpack _); by vm_compute|].
  split; [by vm_compute|].
  split; [by vm_compute|].
  split; [by vm_compute|].
  split; [apply (bool_decide_unpack _); by vm_compute|].
  split; [by vm_compute|].
  intros. unfold resolve_operations, objects.
  assert (find_model "Operation" = None) as -> by (by vm_compute).
  reflexivity.
Qed.

(** ** The transactions query *)

Lemma objects_Transaction (st : Store) :
  objects st "Transaction"
  = Ok (MkQuerySet Transaction.meta (table st Transaction.meta)).
Proof.
  unfold objects.
  assert (find_model "Transaction" = Some Transaction.meta) as ->
    by (by vm_compute).
  reflexivity.
Qed.

Lemma has_filter_getitem (f : gmap string value) (key : string) :
  has_filter (Some f) key = true → ∃ v, getitem (Some f) key = Ok v.
Proof.
  unfold has_filter, getitem. intros H.
  apply andb_true_iff in H as [_ H]. apply bool_decide_eq_true in H.
  destruct H as [v ->]. by exists v.
Qed.

Lemma getitem_Some (f : gmap string value) (key : string) (v : value) :
  f !! key = Some v → getitem (Some f) key = Ok v.
Proof. unfold getitem. by intros ->. Qed.

Lemma getitem_None (f : gmap string value) (key : string) :
  f !! key = None → getitem (Some f) key = Err (KeyError key).
Proof. unfold getitem. by intros ->. Qed.

Lemma has_filter_Some (f : gmap string value) (key : string) :
  has_filter (Some f) key = bool_decide (is_Some (f !! key)).
Proof.
  unfold has_filter. destruct (f !! key) as [v|] eqn:E.
  - rewrite (bool_decide_eq_true_2 (is_Some (Some v))) by eauto.
    rewrite andb_true_r. apply negb_true_iff, bool_decide_eq_false.
    intros ->. by rewrite lookup_empty in E.
  - rewrite (bool_decide_eq_false_2 (is_Some None)) by (by intros [? ?]).
    apply andb_false_r.
Qed.

(** [tuid] is a column of [Transaction]: the filter goes through and the
    result still ranges over [Transaction]. *)
Lemma filter_by_tuid (v : value) (q : QuerySet) :
  qs_model q = Transaction.meta →
  ∃ q', filter_by "tuid" Exact v q = Ok q' ∧ qs_model q' = Transaction.meta.
Proof.
  intros Hm. unfold filter_by. rewrite Hm.
  rewrite bool_decide_eq_true_2
    by (apply (bool_decide_unpack _); by vm_compute).
  eexists. split; [reflexivity|]. reflexivity.
Qed.

(** [Transaction] has no [name] and no [is_closed]. *)
Lemma filter_by_name (lk : lookup) (v : value) (q : QuerySet) :
  qs_model q = Transaction.meta →
  filter_by "name" lk v q = Err (FieldError "name").
Proof.
  intros Hm. unfold filter_by. rewrite Hm.
  by rewrite bool_decide_eq_false_2
    by (apply (bool_decide_unpack _); by vm_compute).
Qed.

Lemma filter_by_is_closed (lk : lookup) (v : value) (q : QuerySet) :
  qs_model q = Transaction.meta →
  filter_by "is_closed" lk v q = Err (FieldError "is_closed").
Proof.
  intros Hm. unfold filter_by. rewrite Hm.
  by rewrite bool_decide_eq_false_2
    by (apply (bool_decide_unpack _); by vm_compute).
Qed.

(** C10, as stated, fails: with both [name] and [is_closed] among the
    filters, and no [isClosed], the call fails before it reads
    [filters['isClosed']], on [query.filter(name=...)], with the
    [FieldError] Django raises for a keyword the model does not have. *)
Lemma resolve_transactions_is_closed_counterexample :
  ¬ (∀ (default_page_size : Z) (st : Store) (f : gmap string value)
       (page page_size : option Z),
       is_Some (f !! "is_closed") → f !! "isClosed" = None →
       resolve_transactions default_page_size st (Some f) page page_size
       = Err (KeyError "isClosed")).
Proof.
  intros H.
  specialize (H 10 empty_store
    (<["name" := VStr "x"]> {["is_closed" := VBool true]}) None None).
  assert (resolve_transactions 10 empty_store
            (Some (<["name" := VStr "x"]> {["is_closed" := VBool true]}))
            None None = Err (FieldError "name")) as E by (by vm_compute).
  rewrite E in H.
  assert (Err (A := PaginatedType) (FieldError "name")
          = Err (KeyError "isClosed")) as Habs.
  { apply H; [eexists|]; by vm_compute. }
  discriminate Habs.
Qed.

(** C10, amended: a transactions query whose filters hold [is_closed] but
    not [isClosed] never returns a paginated result. It fails with the
    missing-key error for [isClosed] when the filters hold no [name], and
    otherwise, earlier, with the field error for [name]. *)
Theorem resolve_transactions_is_closed (default_page_size : Z) (st : Store)
    (f : gmap string value) (page page_size : option Z) :
  is_Some (f !! "is_closed") → f !! "isClosed" = None →
  resolve_transactions default_page_size st (Some f) page page_size
  = Err (if decide (is_Some (f !! "name")) then FieldError "name"
         else KeyError "isClosed").
Proof.
  intros Hclosed Hmissing.
  unfold resolve_transactions.
  rewrite objects_Transaction.
  cbn [fmap result_fmap mbind result_bind].
  set (q0 := order_by "created_at" _).
  assert (qs_model q0 = Transaction.meta) as Hq0 by reflexivity.
  clearbody q0.
  assert (∃ q1, (if has_filter (Some f) "tuid"
                 then getitem (Some f) "tuid"
                      ≫= (λ v, filter_by "tuid" Exact v q0)
                 else Ok q0) = Ok q1
                ∧ qs_model q1 = Transaction.meta) as (q1 & -> & Hq1).
  { destruct (has_filter (Some f) "tuid") eqn:Ht; [|by exists q0].
    destruct (has_filter_getitem _ _ Ht) as [v ->].
    cbn [mbind result_bind]. by apply filter_by_tuid. }
  cbn [mbind result_bind].
  rewrite !has_filter_Some.
  destruct (decide (is_Some (f !! "name"))) as [Hname|Hname].
  - rewrite (bool_decide_eq_true_2 _ Hname).
    destruct Hname as [v Hv]. rewrite (getitem_Some _ _ _ Hv).
    cbn [mbind result_bind]. by rewrite filter_by_name.
  - rewrite (bool_decide_eq_false_2 _ Hname).
    cbn [mbind result_bind].
    rewrite (bool_decide_eq_true_2 _ Hclosed).
    by rewrite (getitem_None _ _ Hmissing).
Qed.

Lemma resolve_transactions_is_closed_witness :
  let f : gmap string value := {["is_closed" := VBool true]} in
  is_Some (f !! "is_closed") ∧ f !! "isClosed" = None
  ∧ resolve_transactions 10 empty_store (Some f) None None
    = Err (KeyError "isClosed").
Proof.
  intros f.
  assert (is_Some (f !! "is_closed")) as H1 by (eexists; by vm_compute).
  assert (f !! "isClosed" = None) as H2 by (by vm_compute).
  split; [exact H1|]. split; [exact H2|].
  rewrite (resolve_transactions_is_closed 10 empty_store f None None H1 H2).
  by vm_compute.
Defined.

(** ** Operations on the entity store *)

Lemma find_Some_elem {A} (f : A → bool) (l : list A) (x : A) :
  find f l = Some x → x ∈ l ∧ f x = true.
Proof.
  induction l as [|y l IH]; [discriminate|]. cbn [find].
  destruct (f y) eqn:E.
  - intros [= ->]. split; [left|done].
  - intros H. destruct (IH H). split; [by right|done].
Qed.



Lemma find_unique_identity_Ok (st : Store) (uuid : string) (u : UniqueIdentity.t) :
  find_unique_identity st uuid = Ok u →
  u ∈ uidentities st ∧ UniqueIdentity.uuid u = uuid.
Proof.
  unfold find_unique_identity.
  destruct (find _ _) as [u'|] eqn:E; [|discriminate].
  intros [= ->]. apply find_Some_elem in E as [Hin Hf].
  split; [done|]. by apply bool_decide_eq_true in Hf.
Qed.


Lemma find_organization_Ok (st : Store) (name : string) (o : Organization.t) :
  find_organization st name = Ok o →
  o ∈ organizations st ∧ Organization.name o = name.
Proof.
  unfold find_organization.
  destruct (find _ _) as [o'|] eqn:E; [|discriminate].
  intros [= ->]. apply find_Some_elem in E as [Hin Hf].
  split; [done|]. by apply bool_decide_eq_true in Hf.
Qed.

(** *** add_identity *)

(** C3: once [add_identity] has registered a (name, email, username,
    source) tuple, a second call with the same tuple fails with
    [DuplicateEntityError], whatever the time of the call and the uuid it
    names. *)
Theorem add_identity_twice
    (generate_id : string → option string → option string → option string → string)
    (now : datetime) (st : Store) (source : string)
    (name email username uuid : option string)
    (i : Identity.t) (st' : Store) :
  add_identity generate_id now st source name email username uuid
    = Ok (i, st') →
  ∀ (now' : datetime) (uuid' : option string),
    add_identity generate_id now' st' source name email username uuid'
    = Err DuplicateEntityError.
Proof.
  unfold add_identity, create_identity. intros H now' uuid'.
  destruct (negb _) eqn:Hvalid; [discriminate|].
  destruct (bool_decide (Exists _ _)) eqn:Hdup; [discriminate|].
  destruct (bool_decide (_ ∈ _)) eqn:Hpk; [discriminate|].
  assert (∃ st1, st' = set_identities
            (identities st1 ++
             [Identity.Row now now (generate_id source name email username)
                name email username source (Identity.uidentity i)]) st1)
    as [st1 ->].
  { destruct uuid as [target|].
    - destruct (find_unique_identity st target) as [u|]; [|discriminate].
      cbn in H. injection H as <- <-. exists st. reflexivity.
    - cbn in H. injection H as <- <-.
      exists (create_unique_identity now st).2. reflexivity. }
  cbn [identities set_identities].
  rewrite bool_decide_eq_true_2; [done|].
  apply Exists_exists. eexists. split.
  - apply elem_of_app. right. apply list_elem_of_singleton. reflexivity.
  - by repeat split.
Qed.

Lemma add_identity_twice_witness :
  ∃ i st',
    add_identity sample_generate_id sample_now empty_store
      "git" (Some "Alice") (Some "a@x.com") None None = Ok (i, st')
    ∧ add_identity sample_generate_id sample_now st'
        "git" (Some "Alice") (Some "a@x.com") None (Some (Identity.uidentity i))
      = Err DuplicateEntityError.
Proof.
  destruct (add_identity sample_generate_id sample_now empty_store
              "git" (Some "Alice") (Some "a@x.com") None None)
    as [[i st']|] eqn:E; [|by vm_compute in E].
  exists i, st'. split; [reflexivity|].
  exact (add_identity_twice _ _ _ _ _ _ _ _ _ _ E _ _).
Defined.

(** The first registration of a valid tuple goes through. *)
Lemma add_identity_new
    (generate_id : string → option string → option string → option string → string)
    (now : datetime) (st : Store) (source : string)
    (name email username : option string) :
  non_empty name || non_empty email || non_empty username = true →
  ¬ Exists (same_tuple source name email username) (identities st) →
  generate_id source name email username ∉ Identity.id <$> identities st →
  is_ok (add_identity generate_id now st source name email username None)
  = true.
Proof.
  intros Hvalid Hnew Hpk. unfold add_identity, create_identity.
  rewrite Hvalid. cbn [negb].
  rewrite (bool_decide_eq_false_2 _ Hnew), (bool_decide_eq_false_2 _ Hpk).
  reflexivity.
Qed.

(** *** enroll *)

(** C5: an [enroll] call that gives neither bound creates one Enrollment,
    for the identity and the organization it names, that starts at
    1900-01-01T00:00:00Z and ends at 2100-01-01T00:00:00Z, the defaults
    [models.py] declares for the two columns. *)
Theorem enroll_default_period (now : datetime) (st : Store)
    (uuid org_name : string) (st' : Store) :
  enroll now st uuid org_name None None = Ok st' →
  ∃ e o,
    enrollments st' = enrollments st ++ [e]
    ∧ find_organization st org_name = Ok o
    ∧ Enrollment.uidentity e = uuid
    ∧ Enrollment.organization e = Organization.id o
    ∧ Enrollment.start e = Datetime 1900 1 1 0 0 0 0
    ∧ Enrollment.end_ e = Datetime 2100 1 1 0 0 0 0
    ∧ Enrollment.start e = Enrollment.start_default
    ∧ Enrollment.end_ e = Enrollment.end_default.
Proof.
  unfold enroll. intros H.
  destruct (find_unique_identity st uuid) as [u|] eqn:Hu; [|discriminate].
  destruct (find_organization st org_name) as [o|] eqn:Ho; [|discriminate].
  cbn [mbind result_bind default] in H.
  destruct (bool_decide (dt_lt _ _)); [discriminate|].
  destruct (bool_decide (Exists _ _)); [discriminate|].
  injection H as <-.
  apply find_unique_identity_Ok in Hu as [_ Hu].
  eexists _, o. cbn [enrollments set_autofield set_enrollments].
  split; [reflexivity|]. by repeat split.
Qed.

Lemma enroll_default_period_witness :
  ∃ st' e,
    enroll sample_now sample_store "U1" "Acme" None None = Ok st'
    ∧ enrollments st' = [e]
    ∧ Enrollment.start e = Datetime 1900 1 1 0 0 0 0
    ∧ Enrollment.end_ e = Datetime 2100 1 1 0 0 0 0.
Proof.
  destruct (enroll sample_now sample_store "U1" "Acme" None None)
    as [st'|] eqn:E; [|by vm_compute in E].
  destruct (enroll_default_period _ _ _ _ _ E)
    as (e & o & Hrows & _ & _ & _ & Hs & He & _).
  exists st', e. by repeat split.
Defined.

(** Enrolling an existing identity in an existing organization goes
    through when the pair does not have the full-range enrollment yet. *)
Lemma enroll_default_returns (now : datetime) (st : Store)
    (u : UniqueIdentity.t) (o : Organization.t) :
  find_unique_identity st (UniqueIdentity.uuid u) = Ok u →
  find_organization st (Organization.name o) = Ok o →
  ¬ Exists (λ e, Enrollment.uidentity e = UniqueIdentity.uuid u
                 ∧ Enrollment.organization e = Organization.id o
                 ∧ Enrollment.start e = MIN_PERIOD_DATE
                 ∧ Enrollment.end_ e = MAX_PERIOD_DATE) (enrollments st) →
  is_ok (enroll now st (UniqueIdentity.uuid u) (Organization.name o) None None)
  = true.
Proof.
  intros Hu Ho Hnew. unfold enroll. rewrite Hu, Ho.
  cbn [mbind result_bind default].
  rewrite bool_decide_eq_false_2 by (by vm_compute).
  by rewrite (bool_decide_eq_false_2 _ Hnew).
Qed.

(** *** merge_identities *)

(** The merge of U1 into U2 in the sample store: the profile of U2 keeps
    [is_bot = true] and, having no name of its own, takes the name of
    U1; the profile of U1 is gone. *)
Example merge_identities_profile :
  (λ st', (λ p, (Profile.uidentity p, Profile.name p, Profile.is_bot p))
            <$> profiles st')
    <$> merge_identities sample_now sample_merge_store "U1" "U2"
  = Ok [("U2", Some "Alice", true)].
Proof. reflexivity. Qed.

(** *** withdraw *)

Section withdraw_facts.
Variables (now : datetime) (uuid : string) (org : Z).
Variables (from_date to_date : datetime).

Let one := withdraw_enrollment now uuid org from_date to_date.
Let all := withdraw_enrollments now uuid org from_date to_date.

Lemma withdraw_enrollment_other (e : Enrollment.t) (auto : Z) :
  ¬ of_pair uuid org e → one e auto = ([e], auto).
Proof.
  intros Hn. unfold one, withdraw_enrollment.
  rewrite decide_False; [done|]. unfold overlaps, of_pair in *. tauto.
Qed.



Lemma withdraw_enrollments_cons (e : Enrollment.t) (rows : list Enrollment.t)
    (auto : Z) :
  all (e :: rows) auto
  = ((one e auto).1 ++ (all rows (one e auto).2).1,
     (all rows (one e auto).2).2).
Proof.
  unfold all, one. cbn [withdraw_enrollments].
  destruct (withdraw_enrollment _ _ _ _ _ e auto) as [out auto1].
  cbn [fst snd].
  by destruct (withdraw_enrollments _ _ _ _ _ rows auto1).
Qed.



(** Rows of other identities and organizations are kept, and no row of
    the pair comes out of them. *)
Lemma withdraw_enrollments_others (rows : list Enrollment.t) (auto : Z) :
  filter (of_pair uuid org) rows = [] →
  filter (of_pair uuid org) (all rows auto).1 = [].
Proof.
  revert auto. induction rows as [|r rows IH]; intros auto Hf; [done|].
  rewrite withdraw_enrollments_cons. cbn [fst].
  rewrite filter_cons in Hf. case_decide as Hr; [discriminate|].
  rewrite (withdraw_enrollment_other _ _ Hr). cbn [fst snd].
  cbn [app]. rewrite filter_cons_False by done. by apply IH.
Qed.

Lemma withdraw_enrollments_only (rows : list Enrollment.t) (auto : Z)
    (e : Enrollment.t) :
  filter (of_pair uuid org) rows = [e] →
  ∃ auto',
    filter (of_pair uuid org) (all rows auto).1
    = filter (of_pair uuid org) (one e auto').1.
Proof.
  revert auto. induction rows as [|r rows IH]; intros auto Hf; [done|].
  rewrite withdraw_enrollments_cons. cbn [fst].
  rewrite filter_cons in Hf. rewrite filter_app.
  case_decide as Hr.
  - injection Hf as -> Hrest. exists auto.
    rewrite (withdraw_enrollments_others _ _ Hrest).
    by rewrite app_nil_r.
  - rewrite (withdraw_enrollment_other _ _ Hr). cbn [fst snd].
    rewrite filter_cons_False, filter_nil by done. cbn [app].
    by apply IH.
Qed.
End withdraw_facts.

(** * Further properties of the data model *)

(** ** Deleting a UniqueIdentity or a Country *)

(** Deleting a UniqueIdentity deletes its raw Identities, its Profile and
    its Enrollments, all three relations being declared [CASCADE]; the
    rows of other UniqueIdentities stay, unchanged and in order, and so
    do organizations, domains, countries, contexts and transactions. *)
Theorem delete_UniqueIdentity_cascades (st : Store) (pk : string) :
  let st' := delete_UniqueIdentity pk st in
  identities st' = filter (λ i, Identity.uidentity i ≠ pk) (identities st)
  ∧ profiles st' = filter (λ p, Profile.uidentity p ≠ pk) (profiles st)
  ∧ enrollments st'
    = filter (λ e, Enrollment.uidentity e ≠ pk) (enrollments st)
  ∧ uidentities st'
    = filter (λ u, UniqueIdentity.uuid u ≠ pk) (uidentities st)
  ∧ organizations st' = organizations st
  ∧ domains_organizations st' = domains_organizations st
  ∧ countries st' = countries st
  ∧ contexts st' = contexts st
  ∧ transactions st' = transactions st.
Proof.
  unfold delete_UniqueIdentity.
  cbn [identities profiles enrollments uidentities organizations
       domains_organizations countries contexts transactions
       set_identities set_profiles set_enrollments set_uidentities].
  rewrite !collect_cascade by reflexivity.
  by repeat split.
Qed.

(** Deleting a Country deletes no Profile: [Profile.country] is declared
    [SET_NULL], so a profile of that country loses the reference and keeps
    every other column, and the other profiles are untouched. *)
Theorem delete_Country_keeps_profiles (st : Store) (code : string) :
  Forall2
    (λ p p',
       Profile.id p' = Profile.id p
       ∧ Profile.uidentity p' = Profile.uidentity p
       ∧ Profile.name p' = Profile.name p
       ∧ Profile.email p' = Profile.email p
       ∧ Profile.gender p' = Profile.gender p
       ∧ Profile.gender_acc p' = Profile.gender_acc p
       ∧ Profile.is_bot p' = Profile.is_bot p
       ∧ Profile.created_at p' = Profile.created_at p
       ∧ Profile.last_modified p' = Profile.last_modified p
       ∧ Profile.country p'
         = (if decide (Profile.country p = Some code) then None
            else Profile.country p))
    (profiles st) (profiles (delete_Country code st))
  ∧ countries (delete_Country code st)
    = filter (λ c, Country.code c ≠ code) (countries st)
  ∧ uidentities (delete_Country code st) = uidentities st.
Proof.
  unfold delete_Country.
  cbn [profiles countries uidentities set_profiles set_countries].
  rewrite collect_set_null by reflexivity.
  split; [|done].
  induction (profiles st) as [|p l IH]; [constructor|].
  rewrite fmap_cons. constructor; [|exact IH].
  destruct (decide (Profile.country p = Some code)); by repeat split.
Qed.

(** ** Referential integrity *)

Lemma elem_of_fmap_filter_ne {A B} `{EqDecision B} (f : A → B) (pk x : B)
    (l : list A) :
  x ∈ f <$> l → x ≠ pk → x ∈ f <$> filter (λ a, f a ≠ pk) l.
Proof.
  intros Hin Hne. apply list_elem_of_fmap in Hin as (a & -> & Ha).
  apply list_elem_of_fmap. exists a. split; [done|].
  by apply list_elem_of_filter.
Qed.

(** No deletion leaves a dangling reference: in a store where every
    foreign key names a stored row, it still does after an Organization,
    a UniqueIdentity, a Country or a Context is deleted. *)
Theorem delete_keeps_references_valid (st : Store) :
  references_valid st →
  (∀ pk, references_valid (delete_Organization pk st))
  ∧ (∀ pk, references_valid (delete_UniqueIdentity pk st))
  ∧ (∀ pk, references_valid (delete_Country pk st))
  ∧ (∀ pk, references_valid (delete_Context pk st)).
Proof.
  intros (Hd & Hi & Hp & He & Ht).
  rewrite Forall_forall in Hd. rewrite Forall_forall in Hi.
  rewrite Forall_forall in Hp. rewrite Forall_forall in He.
  rewrite Forall_forall in Ht.
  split; [|split; [|split]]; intros pk.
  - unfold references_valid, delete_Organization.
    cbn [identities profiles enrollments uidentities organizations
         domains_organizations countries contexts transactions
         set_organizations set_enrollments set_domains_organizations].
    rewrite !collect_cascade by reflexivity.
    rewrite !Forall_forall.
    split; [|split; [|split; [|split]]]; try done.
    + intros d Hin. apply list_elem_of_filter in Hin as [Hne Hin].
      by apply elem_of_fmap_filter_ne; [apply Hd|].
    + intros e Hin. apply list_elem_of_filter in Hin as [Hne Hin].
      destruct (He _ Hin). split; [done|].
      by apply elem_of_fmap_filter_ne.
  - unfold references_valid, delete_UniqueIdentity.
    cbn [identities profiles enrollments uidentities organizations
         domains_organizations countries contexts transactions
         set_identities set_profiles set_enrollments set_uidentities].
    rewrite !collect_cascade by reflexivity.
    rewrite !Forall_forall.
    split; [|split; [|split; [|split]]]; try done.
    + intros i Hin. apply list_elem_of_filter in Hin as [Hne Hin].
      by apply elem_of_fmap_filter_ne; [apply Hi|].
    + intros p Hin. apply list_elem_of_filter in Hin as [Hne Hin].
      destruct (Hp _ Hin). split; [|done].
      by apply elem_of_fmap_filter_ne.
    + intros e Hin. apply list_elem_of_filter in Hin as [Hne Hin].
      destruct (He _ Hin). split; [|done].
      by apply elem_of_fmap_filter_ne.
  - unfold references_valid, delete_Country.
    cbn [identities profiles enrollments uidentities organizations
         domains_organizations countries contexts transactions
         set_profiles set_countries].
    rewrite collect_set_null by reflexivity.
    rewrite !Forall_forall.
    split; [|split; [|split; [|split]]]; try done.
    intros p' Hin. apply list_elem_of_fmap in Hin as (p & -> & Hin).
    destruct (Hp _ Hin) as [Hu Hc].
    destruct (decide (Profile.country p = Some pk)) as [Heq|Hne].
    + split; [done|]. intros c. discriminate.
    + split; [done|]. intros c Hpc.
      apply elem_of_fmap_filter_ne; [by apply Hc|]. congruence.
  - unfold references_valid, delete_Context.
    cbn [identities profiles enrollments uidentities organizations
         domains_organizations countries contexts transactions
         set_transactions set_contexts].
    rewrite collect_set_null by reflexivity.
    rewrite !Forall_forall.
    split; [|split; [|split; [|split]]]; try done.
    intros t' Hin. apply list_elem_of_fmap in Hin as (t & -> & Hin).
    destruct (decide (Transaction.context t = Some pk)) as [Heq|Hne].
    + intros c. discriminate.
    + intros c Htc.
      apply elem_of_fmap_filter_ne; [by apply (Ht _ Hin)|]. congruence.
Qed.

Lemma delete_keeps_references_valid_witness :
  references_valid sample_merge_store
  ∧ references_valid (delete_UniqueIdentity "U1" sample_merge_store).
Proof.
  assert (references_valid sample_merge_store) as H.
  { unfold references_valid, sample_merge_store, sample_store. cbn.
    repeat split; repeat constructor; intros c; discriminate. }
  split; [exact H|].
  exact (proj1 (proj2 (delete_keeps_references_valid _ H)) "U1").
Defined.

(** * Further properties of the query layer *)

(** ** Pagination *)

Lemma ceil_div_bounds (h ps : Z) :
  0 < ps →
  (Paginator.ceil_div h ps - 1) * ps < h <= Paginator.ceil_div h ps * ps.
Proof.
  intros Hps.
  pose proof (lt_ceil_div (Paginator.ceil_div h ps - 1) h ps Hps) as H1.
  pose proof (lt_ceil_div (Paginator.ceil_div h ps) h ps Hps) as H2.
  lia.
Qed.

(** The page [Paginator.page] returns, or the exception it raises, for the
    paginator [create_paginated_result] builds. *)
Lemma page_eq (l : list instance) (ps num : Z) :
  Paginator.page (Paginator.Make l ps 0 true) num
  = if (1 <=? num) && (1 <=? ps)
       && ((num - 1) * ps <? Z.max 1 (Z.of_nat (length l)))
    then Ok (Paginator.MkPage
               (drop (Z.to_nat ((num - 1) * ps)) (take (Z.to_nat (num * ps)) l))
               num (Paginator.Make l ps 0 true))
    else Err (if num <? 1 then EmptyPage
              else if ps =? 0 then ZeroDivisionError
              else if (ps <? 0) && (num =? 1) then NegativeIndexing
              else EmptyPage).
Proof.
  destruct (Paginator.page (Paginator.Make l ps 0 true) num) as [pg|e] eqn:E.
  - destruct (page_default _ _ _ _ E) as (Hnum & Hps & ->).
    revert E. unfold Paginator.page, Paginator.validate_number.
    rewrite num_pages_default.
    destruct (Z.ltb_spec num 1); [lia|].
    destruct (Z.eqb_spec ps 0); [lia|].
    cbn [mbind result_bind Paginator.allow_empty_first_page].
    set (h := Z.max 1 (Z.of_nat (length l))).
    pose proof (ceil_div_bounds h ps ltac:(lia)) as Hb.
    pose proof (lt_ceil_div (num - 1) h ps ltac:(lia)) as Hlt.
    destruct (Z.ltb_spec (Paginator.ceil_div h ps) num) as [Hn|Hn].
    + assert (1 <= Paginator.ceil_div h ps).
      { pose proof (lt_ceil_div 0 h ps ltac:(lia)). lia. }
      destruct (Z.eqb_spec num 1); [lia|]. discriminate.
    + intros _.
      destruct (Z.leb_spec 1 num); [|lia].
      destruct (Z.leb_spec 1 ps); [|lia].
      destruct (Z.ltb_spec ((num - 1) * ps) h); [done|lia].
  - revert E. unfold Paginator.page, Paginator.validate_number.
    rewrite num_pages_default.
    unfold Paginator.count, Paginator.slice.
    cbn [Paginator.object_list Paginator.per_page Paginator.orphans
         Paginator.allow_empty_first_page].
    destruct (Z.ltb_spec num 1) as [|Hnum].
    { intros [= <-]. by destruct (Z.leb_spec 1 num); [lia|]. }
    destruct (Z.leb_spec 1 num); [|lia].
    destruct (Z.eqb_spec ps 0) as [->|Hps]; [by intros [= <-]|].
    cbn [mbind result_bind andb].
    set (total := Z.of_nat (length l)).
    assert (0 <= total) as Htotal by (unfold total; lia).
    set (h := Z.max 1 total).
    rewrite andb_true_r.
    destruct (Z.ltb_spec ps 0) as [Hneg|Hpos].
    + destruct (Z.leb_spec 1 ps); [lia|]. cbn [andb].
      pose proof (ceil_div_neg h ps ltac:(lia) Hneg).
      destruct (Z.ltb_spec (Paginator.ceil_div h ps) num); [|lia].
      destruct (Z.eqb_spec num 1) as [->|]; [|by intros [= <-]].
      cbn [mbind result_bind].
      replace ((1 - 1) * ps) with 0 by lia. rewrite Z.add_0_r, Z.add_0_l.
      destruct (Z.leb_spec total ps); [lia|].
      destruct (Z.ltb_spec ps 0); [|lia].
      cbn [Z.ltb Z.compare orb]. by intros [= <-].
    + destruct (Z.leb_spec 1 ps); [|lia]. cbn [andb].
      pose proof (lt_ceil_div (num - 1) h ps ltac:(lia)) as Hlt.
      pose proof (lt_ceil_div 0 h ps ltac:(lia)) as Hzero.
      destruct (Z.ltb_spec (Paginator.ceil_div h ps) num) as [Hn|Hn].
      * destruct (Z.eqb_spec num 1); [lia|].
        intros [= <-].
        by destruct (Z.ltb_spec ((num - 1) * ps) h); [lia|].
      * cbn [mbind result_bind]. rewrite Z.add_0_r.
        destruct (Z.ltb_spec ((num - 1) * ps) 0); [nia|].
        destruct (Z.leb_spec total ((num - 1) * ps + ps)).
        -- destruct (Z.ltb_spec total 0); [lia|]. discriminate.
        -- destruct (Z.ltb_spec ((num - 1) * ps + ps) 0); [nia|]. discriminate.
Qed.

(** What [create_paginated_result] returns or raises, in closed form. *)
Lemma create_paginated_result_eq (query : QuerySet) (page page_size : Z) :
  let total := Z.of_nat (length (qs_list query)) in
  create_paginated_result query page page_size
  = if (1 <=? page) && (1 <=? page_size)
       && ((page - 1) * page_size <? Z.max 1 total)
    then Ok (MkPaginatedType
               (drop (Z.to_nat ((page - 1) * page_size))
                  (take (Z.to_nat (page * page_size)) (qs_list query)))
               (MkPaginationType page page_size
                  (Paginator.ceil_div (Z.max 1 total) page_size)
                  (page * page_size <? total)
                  (1 <? page)
                  (if total =? 0 then 0 else page_size * (page - 1) + 1)
                  (Z.min (page * page_size) total)
                  total))
    else Err (if page <? 1 then EmptyPage
              else if page_size =? 0 then ZeroDivisionError
              else if (page_size <? 0) && (page =? 1) then NegativeIndexing
              else EmptyPage).
Proof.
  intros total. unfold create_paginated_result. rewrite page_eq.
  fold total.
  destruct ((1 <=? page) && (1 <=? page_size)
            && ((page - 1) * page_size <? Z.max 1 total)) eqn:Hc; [|done].
  apply andb_true_iff in Hc as [Hc H3]. apply andb_true_iff in Hc as [H1 H2].
  apply Z.leb_le in H1, H2. apply Z.ltb_lt in H3.
  cbn [mbind result_bind].
  unfold Paginator.has_next, Paginator.end_index, Paginator.has_previous,
    Paginator.start_index, Paginator.count.
  cbn [Paginator.paginator Paginator.number Paginator.page_object_list
       Paginator.object_list Paginator.per_page].
  rewrite num_pages_default.
  destruct (Z.eqb_spec page_size 0) as [|Hsize]; [lia|].
  cbn [mbind result_bind]. fold total.
  set (n := Paginator.ceil_div (Z.max 1 total) page_size).
  assert (0 <= total) as Htotal by (unfold total; lia).
  pose proof (ceil_div_bounds (Z.max 1 total) page_size ltac:(lia)) as Hb.
  pose proof (lt_ceil_div page (Z.max 1 total) page_size ltac:(lia)) as Hlt.
  fold n in Hb, Hlt.
  do 3 f_equal.
  - destruct (Z.ltb_spec page n), (Z.ltb_spec (page * page_size) total);
      try done; nia.
  - destruct (Z.eqb_spec page n); nia.
Qed.

(** [create_paginated_result] returns a page exactly when the page number
    and the page size are positive and the page starts before the end of
    the query set, the first page of an empty query set included. *)
Theorem create_paginated_result_returns_iff (query : QuerySet)
    (page page_size : Z) :
  is_ok (create_paginated_result query page page_size) = true
  ↔ 1 <= page ∧ 1 <= page_size
    ∧ (page - 1) * page_size < Z.max 1 (Z.of_nat (length (qs_list query))).
Proof.
  rewrite create_paginated_result_eq.
  destruct (Z.leb_spec 1 page), (Z.leb_spec 1 page_size),
    (Z.ltb_spec ((page - 1) * page_size)
       (Z.max 1 (Z.of_nat (length (qs_list query)))));
    cbn [andb is_ok]; split; try done; lia.
Qed.

(** The exceptions of [create_paginated_result]: a page number below 1 is
    an [EmptyPage] whatever the page size; from page 1 on, a page size of
    0 is a [ZeroDivisionError]; with a positive page size, a page that
    starts at or after the end of the query set is an [EmptyPage]. *)
Theorem create_paginated_result_raises (query : QuerySet)
    (page page_size : Z) :
  (page < 1 → create_paginated_result query page page_size = Err EmptyPage)
  ∧ (1 <= page → page_size = 0 →
     create_paginated_result query page page_size = Err ZeroDivisionError)
  ∧ (1 <= page → 1 <= page_size →
     Z.max 1 (Z.of_nat (length (qs_list query))) <= (page - 1) * page_size →
     create_paginated_result query page page_size = Err EmptyPage).
Proof.
  rewrite create_paginated_result_eq.
  split; [|split].
  - intros H. destruct (Z.leb_spec 1 page); [lia|].
    by destruct (Z.ltb_spec page 1); [|lia].
  - intros H ->. destruct (Z.leb_spec 1 page); [|lia].
    by destruct (Z.ltb_spec page 1); [lia|].
  - intros H1 H2 H3.
    destruct (Z.leb_spec 1 page); [|lia].
    destruct (Z.leb_spec 1 page_size); [|lia].
    destruct (Z.ltb_spec ((page - 1) * page_size)
                (Z.max 1 (Z.of_nat (length (qs_list query))))); [lia|].
    cbn [andb].
    destruct (Z.ltb_spec page 1); [lia|].
    destruct (Z.eqb_spec page_size 0); [lia|].
    by destruct (Z.ltb_spec page_size 0); [lia|].
Qed.

Lemma create_paginated_result_raises_witness :
  create_paginated_result (MkQuerySet Transaction.meta [one_instance]) 0 5
    = Err EmptyPage
  ∧ create_paginated_result (MkQuerySet Transaction.meta [one_instance]) 1 0
    = Err ZeroDivisionError
  ∧ create_paginated_result (MkQuerySet Transaction.meta [one_instance]) 2 5
    = Err EmptyPage.
Proof.
  pose proof (create_paginated_result_raises
                (MkQuerySet Transaction.meta [one_instance])) as H.
  split; [|split].
  - apply (proj1 (H 0 5)). lia.
  - apply (proj1 (proj2 (H 1 0))); [lia|reflexivity].
  - apply (proj2 (proj2 (H 2 5))); [lia|lia|]. cbn. lia.
Defined.

(** The indices of a returned page: [num_pages] is the least number of
    pages of [page_size] that hold the results (1 for none), and the page
    is one of them; [start_index] and [end_index] are the 1-based
    positions of its first and last entity, both 0 for an empty query set;
    the page holds the entities between them, at most [page_size]. *)
Theorem create_paginated_result_indices (query : QuerySet)
    (page page_size : Z) (r : PaginatedType) :
  create_paginated_result query page page_size = Ok r →
  let total := Z.of_nat (length (qs_list query)) in
  let info := page_info r in
  (num_pages info - 1) * page_size < Z.max 1 total <= num_pages info * page_size
  ∧ 1 <= page <= num_pages info
  ∧ start_index info = (if total =? 0 then 0 else (page - 1) * page_size + 1)
  ∧ end_index info = Z.min (page * page_size) total
  ∧ Z.of_nat (length (entities r)) = end_index info - (page - 1) * page_size
  ∧ Z.of_nat (length (entities r)) <= page_size.
Proof.
  intros H total info. revert H. subst info.
  rewrite create_paginated_result_eq. fold total.
  destruct (Z.leb_spec 1 page) as [H1|]; [|discriminate].
  destruct (Z.leb_spec 1 page_size) as [H2|]; [|discriminate].
  destruct (Z.ltb_spec ((page - 1) * page_size) (Z.max 1 total)) as [H3|];
    [|discriminate].
  cbn [andb]. intros [= <-].
  cbn [page_info entities num_pages start_index end_index].
  assert (0 <= total) as Htotal by (unfold total; lia).
  pose proof (ceil_div_bounds (Z.max 1 total) page_size ltac:(lia)) as Hb.
  pose proof (lt_ceil_div (page - 1) (Z.max 1 total) page_size ltac:(lia)) as Hlt.
  rewrite length_drop, length_take. fold total.
  split; [exact Hb|]. split; [lia|].
  split; [destruct (Z.eqb_spec total 0); lia|].
  split; [done|].
  unfold total in *. split; nia.
Qed.

Lemma create_paginated_result_indices_witness :
  ∃ r,
    create_paginated_result
      (MkQuerySet Transaction.meta [one_instance; one_instance; one_instance])
      2 2 = Ok r
    ∧ start_index (page_info r) = 3 ∧ end_index (page_info r) = 3
    ∧ num_pages (page_info r) = 2.
Proof.
  destruct (create_paginated_result
              (MkQuerySet Transaction.meta
                 [one_instance; one_instance; one_instance]) 2 2)
    as [r|] eqn:E; [|by vm_compute in E].
  exists r. split; [reflexivity|].
  destruct (create_paginated_result_indices _ _ _ _ E)
    as (Hn & Hp & Hs & He & _).
  rewrite Hs, He. split; [reflexivity|]. split; [reflexivity|].
  change (Z.of_nat (length _)) with 3 in Hn. lia.
Defined.

Lemma pages_prefix (query : QuerySet) (page_size : Z) (k : nat) :
  1 <= page_size →
  (Z.of_nat k - 1) * page_size < Z.max 1 (Z.of_nat (length (qs_list query))) →
  Forall (λ p, is_ok (create_paginated_result query p page_size) = true)
    (seqZ 1 (Z.of_nat k))
  ∧ concat ((λ p, match create_paginated_result query p page_size with
                  | Ok r => entities r
                  | Err _ => []
                  end) <$> seqZ 1 (Z.of_nat k))
    = take (Z.to_nat (Z.of_nat k * page_size)) (qs_list query).
Proof.
  intros Hps. induction k as [|k IH]; intros Hk.
  - split; [constructor|]. by rewrite Z.mul_0_l.
  - destruct IH as [IHok IHcat]; [nia|].
    rewrite seqZ_S, fmap_app, concat_app, Forall_app.
    assert (create_paginated_result query (1 + Z.of_nat k) page_size
            = Ok (MkPaginatedType
                    (drop (Z.to_nat (Z.of_nat k * page_size))
                       (take (Z.to_nat (Z.of_nat (S k) * page_size))
                          (qs_list query)))
                    (MkPaginationType (1 + Z.of_nat k) page_size
                       (Paginator.ceil_div
                          (Z.max 1 (Z.of_nat (length (qs_list query))))
                          page_size)
                       ((1 + Z.of_nat k) * page_size
                        <? Z.of_nat (length (qs_list query)))
                       (1 <? 1 + Z.of_nat k)
                       (if Z.of_nat (length (qs_list query)) =? 0 then 0
                        else page_size * (1 + Z.of_nat k - 1) + 1)
                       (Z.min ((1 + Z.of_nat k) * page_size)
                          (Z.of_nat (length (qs_list query))))
                       (Z.of_nat (length (qs_list query)))))) as E.
    { rewrite create_paginated_result_eq.
      destruct (Z.leb_spec 1 (1 + Z.of_nat k)); [|lia].
      destruct (Z.leb_spec 1 page_size); [|lia].
      destruct (Z.ltb_spec ((1 + Z.of_nat k - 1) * page_size)
                  (Z.max 1 (Z.of_nat (length (qs_list query))))); [|lia].
      cbn [andb]. do 3 f_equal; f_equal; lia. }
    split.
    + split; [exact IHok|]. constructor; [|constructor]. by rewrite E.
    + rewrite IHcat. cbn [fmap list_fmap concat]. rewrite E.
      cbn [entities]. rewrite app_nil_r.
      set (a := Z.to_nat (Z.of_nat k * page_size)).
      set (b := Z.to_nat (Z.of_nat (S k) * page_size)).
      assert (a ≤ b)%nat as Hab by (unfold a, b; nia).
      rewrite <- (take_drop a (take b (qs_list query))) at 2.
      rewrite take_take. by rewrite Nat.min_l.
Qed.

(** The pages of a query set cover it: for a positive page size, every
    page from 1 to [num_pages] is returned, and their entities, put end to
    end, are the query set, each result once and in order. *)
Theorem pages_cover_query (query : QuerySet) (page_size : Z) :
  1 <= page_size →
  let pages :=
    seqZ 1 (Paginator.ceil_div
              (Z.max 1 (Z.of_nat (length (qs_list query)))) page_size) in
  Forall (λ p, is_ok (create_paginated_result query p page_size) = true) pages
  ∧ concat ((λ p, match create_paginated_result query p page_size with
                  | Ok r => entities r
                  | Err _ => []
                  end) <$> pages)
    = qs_list query.
Proof.
  intros Hps pages. subst pages.
  set (h := Z.max 1 (Z.of_nat (length (qs_list query)))).
  pose proof (ceil_div_bounds h page_size ltac:(lia)) as Hb.
  set (n := Paginator.ceil_div h page_size) in *.
  assert (0 <= n) as Hn by nia.
  assert (n = Z.of_nat (Z.to_nat n)) as Hk by lia.
  destruct (pages_prefix query page_size (Z.to_nat n) Hps) as [Hok Hcat];
    [fold h; lia|].
  rewrite <- Hk in Hok, Hcat.
  split; [exact Hok|]. rewrite Hcat.
  apply take_ge. unfold h in Hb. lia.
Qed.

Lemma pages_cover_query_witness :
  let query :=
    MkQuerySet Transaction.meta [one_instance; one_instance; one_instance] in
  concat ((λ p, match create_paginated_result query p 2 with
                | Ok r => entities r
                | Err _ => []
                end) <$> seqZ 1 2)
  = qs_list query.
Proof.
  intros query.
  exact (proj2 (pages_cover_query query 2 ltac:(lia))).
Defined.

(** ** Query sets *)

Lemma value_leb_total (a b : value) :
  value_leb a b = true ∨ value_leb b a = true.
Proof.
  destruct a as [|x|x|x|x|x], b as [|y|y|y|y|y]; cbn; auto.
  - apply String.leb_total.
  - destruct x, y; auto.
  - destruct (Z.leb_spec x y); [by left|right]. apply Z.leb_le. lia.
  - destruct (Z.leb_spec (instant x) (instant y)); [by left|right].
    apply Z.leb_le. lia.
Qed.

Section order_by_facts.
Variable key : instance → value.

Let le (a b : instance) : Prop := value_leb (key a) (key b) = true.

Lemma insert_sorted_Permutation (x : instance) (l : list instance) :
  insert_sorted key x l ≡ₚ x :: l.
Proof.
  induction l as [|y l IH]; [done|]. cbn [insert_sorted].
  destruct (value_leb (key x) (key y)); [done|].
  rewrite IH. apply Permutation_swap.
Qed.

Lemma insert_sorted_HdRel (x y : instance) (l : list instance) :
  le y x → HdRel le y l → HdRel le y (insert_sorted key x l).
Proof.
  intros Hyx Hhd. destruct l as [|z l]; cbn [insert_sorted].
  - by constructor.
  - destruct (value_leb (key x) (key z)); constructor; [done|].
    by inversion Hhd.
Qed.

Lemma insert_sorted_Sorted (x : instance) (l : list instance) :
  Sorted le l → Sorted le (insert_sorted key x l).
Proof.
  induction 1 as [|y l Hs IH Hhd]; cbn [insert_sorted].
  - by repeat constructor.
  - destruct (value_leb (key x) (key y)) eqn:E.
    + constructor; [by constructor|]. by constructor.
    + constructor; [exact IH|].
      apply insert_sorted_HdRel; [|done].
      unfold le. destruct (value_leb_total (key x) (key y)); congruence.
Qed.

Lemma foldr_insert_sorted (l : list instance) :
  foldr (insert_sorted key) [] l ≡ₚ l
  ∧ Sorted le (foldr (insert_sorted key) [] l).
Proof.
  induction l as [|x l [IHp IHs]]; [by split; [|constructor]|].
  cbn [foldr]. split.
  - by rewrite insert_sorted_Permutation, IHp.
  - by apply insert_sorted_Sorted.
Qed.
End order_by_facts.

(** [order_by] rearranges the instances of a query set without adding or
    losing one, keeps the model it ranges over, and leaves each instance
    followed by one whose column value is not smaller, nulls first. *)
Lemma order_by_sorted (name : string) (q : QuerySet) :
  qs_model (order_by name q) = qs_model q
  ∧ qs_list (order_by name q) ≡ₚ qs_list q
  ∧ Sorted (λ a b, value_leb (attr a name) (attr b name) = true)
      (qs_list (order_by name q)).
Proof.
  split; [reflexivity|].
  exact (foldr_insert_sorted (λ i, attr i name) (qs_list q)).
Qed.

(** [filter] raises [FieldError] exactly for a keyword the model does not
    resolve. Otherwise it returns a query set over the same model whose
    instances are those of the given one that match, in the same order. *)
Lemma filter_by_selects (name : string) (lk : lookup) (v : value)
    (q : QuerySet) :
  (name ∉ lookup_names (qs_model q) →
   filter_by name lk v q = Err (FieldError name))
  ∧ (name ∈ lookup_names (qs_model q) →
     ∃ q', filter_by name lk v q = Ok q'
           ∧ qs_model q' = qs_model q
           ∧ qs_list q' `sublist_of` qs_list q
           ∧ ∀ i, i ∈ qs_list q' ↔
                  i ∈ qs_list q ∧ matches lk (attr i name) v = true).
Proof.
  unfold filter_by. split; intros H.
  - by rewrite bool_decide_eq_false_2.
  - rewrite bool_decide_eq_true_2 by done.
    eexists. split; [reflexivity|]. cbn [qs_model qs_list].
    split; [done|]. split; [apply sublist_filter|].
    intros i. rewrite list_elem_of_filter. tauto.
Qed.

(** ** Resolvers *)

Lemma has_filter_empty (key : string) : has_filter (Some ∅) key = false.
Proof. reflexivity. Qed.

Lemma has_filter_absent (f : gmap string value) (key : string) :
  f !! key = None → has_filter (Some f) key = false.
Proof.
  intros H. rewrite has_filter_Some. apply bool_decide_eq_false.
  rewrite H. by intros [? ?].
Qed.

(** One guarded filter of a resolver: when it goes through, the model is
    kept, no instance is added, and with the key among the filters every
    instance left matches its value. *)
Lemma filter_step (f : gmap string value) (key field : string) (lk : lookup)
    (q q' : QuerySet) :
  (if has_filter (Some f) key
   then getitem (Some f) key ≫= (λ v, filter_by field lk v q)
   else Ok q) = Ok q' →
  qs_model q' = qs_model q
  ∧ qs_list q' `sublist_of` qs_list q
  ∧ (f !! key = None → q' = q)
  ∧ (∀ v, f !! key = Some v →
          qs_list q'
          = filter (λ i, matches lk (attr i field) v = true) (qs_list q)).
Proof.
  rewrite has_filter_Some. destruct (f !! key) as [v|] eqn:E.
  - rewrite bool_decide_eq_true_2 by eauto.
    rewrite (getitem_Some _ _ _ E). cbn [mbind result_bind].
    unfold filter_by. case_bool_decide; [|discriminate].
    intros [= <-]. cbn [qs_model qs_list].
    split; [done|]. split; [apply sublist_filter|].
    split; [discriminate|]. by intros v' [= <-].
  - rewrite bool_decide_eq_false_2 by (by intros [? ?]).
    intros [= <-]. split; [done|]. split; [done|]. split; [done|].
    discriminate.
Qed.

Lemma objects_Organization (st : Store) :
  objects st "Organization"
  = Ok (MkQuerySet Organization.meta
          (Organization_instance <$> organizations st)).
Proof.
  unfold objects.
  assert (find_model "Organization" = Some Organization.meta) as ->
    by (by vm_compute).
  reflexivity.
Qed.

Lemma objects_UniqueIdentity (st : Store) :
  objects st "UniqueIdentity"
  = Ok (MkQuerySet UniqueIdentity.meta
          (UniqueIdentity_instance <$> uidentities st)).
Proof.
  unfold objects.
  assert (find_model "UniqueIdentity" = Some UniqueIdentity.meta) as ->
    by (by vm_compute).
  reflexivity.
Qed.

Lemma attr_Organization_name (o : Organization.t) :
  attr (Organization_instance o) "name" = VStr (Organization.name o).
Proof. reflexivity. Qed.

Lemma attr_UniqueIdentity_uuid (u : UniqueIdentity.t) :
  attr (UniqueIdentity_instance u) "uuid" = VStr (UniqueIdentity.uuid u).
Proof. reflexivity. Qed.

Lemma attr_Transaction_tuid (t : Transaction.t) :
  attr (Transaction_instance t) "tuid" = VStr (Transaction.tuid t).
Proof. reflexivity. Qed.

Lemma attr_Transaction_created_at (t : Transaction.t) :
  attr (Transaction_instance t) "created_at"
  = VDate (Transaction.created_at t).
Proof. reflexivity. Qed.

Lemma length_filter_fmap {A B} (f : A → B) (P : B → Prop)
    `{!∀ y, Decision (P y)} (l : list A) :
  length (filter P (f <$> l)) = length (filter (λ x, P (f x)) l).
Proof.
  induction l as [|x l IH]; [done|].
  rewrite fmap_cons, !filter_cons. case_decide; cbn [length]; by rewrite IH.
Qed.

(** What a returned page holds: entities of the query set, and its size as
    [total_results]. *)
Lemma create_paginated_result_entities (query : QuerySet)
    (page page_size : Z) (r : PaginatedType) :
  create_paginated_result query page page_size = Ok r →
  entities r `sublist_of` qs_list query
  ∧ total_results (page_info r) = Z.of_nat (length (qs_list query)).
Proof.
  rewrite create_paginated_result_eq.
  destruct (_ && _); [|discriminate]. intros [= <-].
  cbn [entities page_info total_results]. split; [|done].
  etrans; [apply sublist_drop|apply sublist_take].
Qed.

(** The organizations query with a [name] filter returns organizations of
    that name only, and [total_results] is the number of stored
    organizations of that name. *)
Theorem resolve_organizations_by_name (default_page_size : Z) (st : Store)
    (f : gmap string value) (v : value) (page page_size : option Z)
    (r : PaginatedType) :
  f !! "name" = Some v →
  resolve_organizations default_page_size st (Some f) page page_size = Ok r →
  (∀ i, i ∈ entities r →
        ∃ o, o ∈ organizations st ∧ i = Organization_instance o
             ∧ VStr (Organization.name o) = v)
  ∧ total_results (page_info r)
    = Z.of_nat (length (filter (λ o, VStr (Organization.name o) = v)
                          (organizations st))).
Proof.
  intros Hv. unfold resolve_organizations.
  rewrite objects_Organization. cbn [fmap result_fmap mbind result_bind].
  destruct (if has_filter (Some f) "name" then _ else _) as [q|] eqn:E;
    [|discriminate].
  cbn [mbind result_bind]. intros Hr.
  apply filter_step in E as (_ & _ & _ & Hl). specialize (Hl _ Hv).
  apply create_paginated_result_entities in Hr as [Hsub Htotal].
  destruct (order_by_sorted "name"
              (MkQuerySet Organization.meta
                 (Organization_instance <$> organizations st)))
    as (_ & Hperm & _).
  cbn [qs_list] in Hperm.
  split.
  - intros i Hi. apply (sublist_subseteq _ _ Hsub) in Hi.
    rewrite Hl in Hi. apply list_elem_of_filter in Hi as [Hm Hi].
    rewrite Hperm in Hi. apply list_elem_of_fmap in Hi as (o & -> & Ho).
    exists o. split; [done|]. split; [done|].
    rewrite attr_Organization_name in Hm.
    by apply bool_decide_eq_true in Hm.
  - rewrite Htotal, Hl. f_equal.
    rewrite Hperm, length_filter_fmap.
    f_equal. apply list_filter_iff. intros o.
    rewrite attr_Organization_name. cbn [matches].
    by rewrite bool_decide_eq_true.
Qed.

Lemma resolve_organizations_by_name_witness :
  ∃ r,
    resolve_organizations 10 sample_store (Some {["name" := VStr "Acme"]})
      None None = Ok r
    ∧ total_results (page_info r) = 1.
Proof.
  destruct (resolve_organizations 10 sample_store
              (Some {["name" := VStr "Acme"]}) None None) as [r|] eqn:E;
    [|by vm_compute in E].
  exists r. split; [reflexivity|].
  destruct (resolve_organizations_by_name 10 sample_store
              {["name" := VStr "Acme"]} (VStr "Acme") None None r) as [_ ->];
    [by vm_compute|exact E|].
  by vm_compute.
Defined.

(** The uidentities query with a [uuid] filter returns UniqueIdentities of
    that uuid only, and [total_results] is the number of stored
    UniqueIdentities of that uuid. *)
Theorem resolve_uidentities_by_uuid (default_page_size : Z) (st : Store)
    (f : gmap string value) (v : value) (page page_size : option Z)
    (r : PaginatedType) :
  f !! "uuid" = Some v →
  resolve_uidentities default_page_size st (Some f) page page_size = Ok r →
  (∀ i, i ∈ entities r →
        ∃ u, u ∈ uidentities st ∧ i = UniqueIdentity_instance u
             ∧ VStr (UniqueIdentity.uuid u) = v)
  ∧ total_results (page_info r)
    = Z.of_nat (length (filter (λ u, VStr (UniqueIdentity.uuid u) = v)
                          (uidentities st))).
Proof.
  intros Hv. unfold resolve_uidentities.
  rewrite objects_UniqueIdentity. cbn [fmap result_fmap mbind result_bind].
  destruct (if has_filter (Some f) "uuid" then _ else _) as [q|] eqn:E;
    [|discriminate].
  cbn [mbind result_bind]. intros Hr.
  apply filter_step in E as (_ & _ & _ & Hl). specialize (Hl _ Hv).
  apply create_paginated_result_entities in Hr as [Hsub Htotal].
  destruct (order_by_sorted "uuid"
              (MkQuerySet UniqueIdentity.meta
                 (UniqueIdentity_instance <$> uidentities st)))
    as (_ & Hperm & _).
  cbn [qs_list] in Hperm.
  split.
  - intros i Hi. apply (sublist_subseteq _ _ Hsub) in Hi.
    rewrite Hl in Hi. apply list_elem_of_filter in Hi as [Hm Hi].
    rewrite Hperm in Hi. apply list_elem_of_fmap in Hi as (u & -> & Hu).
    exists u. split; [done|]. split; [done|].
    rewrite attr_UniqueIdentity_uuid in Hm.
    by apply bool_decide_eq_true in Hm.
  - rewrite Htotal, Hl. f_equal.
    rewrite Hperm, length_filter_fmap.
    f_equal. apply list_filter_iff. intros u.
    rewrite attr_UniqueIdentity_uuid. cbn [matches].
    by rewrite bool_decide_eq_true.
Qed.

Lemma resolve_uidentities_by_uuid_witness :
  ∃ r,
    resolve_uidentities 10 sample_store (Some {["uuid" := VStr "U2"]})
      None None = Ok r
    ∧ total_results (page_info r) = 1.
Proof.
  destruct (resolve_uidentities 10 sample_store
              (Some {["uuid" := VStr "U2"]}) None None) as [r|] eqn:E;
    [|by vm_compute in E].
  exists r. split; [reflexivity|].
  destruct (resolve_uidentities_by_uuid 10 sample_store
              {["uuid" := VStr "U2"]} (VStr "U2") None None r) as [_ ->];
    [by vm_compute|exact E|].
  by vm_compute.
Defined.

Lemma Sorted_take {A} (R : A → A → Prop) (l : list A) (n : nat) :
  Sorted R l → Sorted R (take n l).
Proof.
  revert n. induction l as [|x l IH]; intros n Hs.
  - destruct n; constructor.
  - destruct n as [|n]; [constructor|]. cbn [take].
    inversion Hs as [|? ? Hs' Hhd]; subst.
    constructor; [by apply IH|].
    destruct l as [|y l]; [destruct n; constructor|].
    destruct n as [|n]; [constructor|]. cbn [take]. constructor.
    by inversion Hhd.
Qed.

Lemma Sorted_drop {A} (R : A → A → Prop) (l : list A) (n : nat) :
  Sorted R l → Sorted R (drop n l).
Proof.
  revert l. induction n as [|n IH]; intros l Hs; [done|].
  destruct l as [|x l]; [constructor|]. cbn [drop].
  apply IH. by inversion Hs.
Qed.

Lemma Sorted_drop_take {A} (R : A → A → Prop) (l : list A) (a b : nat) :
  Sorted R l → Sorted R (drop a (take b l)).
Proof. intros Hs. by apply Sorted_drop, Sorted_take. Qed.

(** Without a [name] filter the organizations query pages through every
    stored organization, in the order of their names: [total_results] is
    the number of stored organizations, and on a page each organization
    is followed by one whose name is not smaller. *)
Theorem resolve_organizations_all (default_page_size : Z) (st : Store)
    (filters : filters_arg) (page page_size : option Z) (r : PaginatedType) :
  has_filter filters "name" = false →
  resolve_organizations default_page_size st filters page page_size = Ok r →
  total_results (page_info r) = Z.of_nat (length (organizations st))
  ∧ (∀ i, i ∈ entities r →
          ∃ o, o ∈ organizations st ∧ i = Organization_instance o)
  ∧ Sorted (λ a b, value_leb (attr a "name") (attr b "name") = true)
      (entities r).
Proof.
  intros Hno. unfold resolve_organizations.
  rewrite objects_Organization, Hno.
  cbn [fmap result_fmap mbind result_bind]. intros Hr.
  destruct (order_by_sorted "name"
              (MkQuerySet Organization.meta
                 (Organization_instance <$> organizations st)))
    as (_ & Hperm & Hsorted).
  cbn [qs_list] in Hperm.
  pose proof (create_paginated_result_entities _ _ _ _ Hr) as [Hsub Htotal].
  split; [|split].
  - by rewrite Htotal, Hperm, length_fmap.
  - intros i Hi. apply (sublist_subseteq _ _ Hsub) in Hi.
    rewrite Hperm in Hi. apply list_elem_of_fmap in Hi as (o & -> & Ho).
    by exists o.
  - revert Hr. rewrite create_paginated_result_eq.
    destruct (_ && _); [|discriminate]. intros [= <-]. cbn [entities].
    by apply Sorted_drop_take.
Qed.

Lemma resolve_organizations_all_witness :
  ∃ r,
    resolve_organizations 10 sample_store None None None = Ok r
    ∧ total_results (page_info r) = 1.
Proof.
  destruct (resolve_organizations 10 sample_store None None None)
    as [r|] eqn:E; [|by vm_compute in E].
  exists r. split; [reflexivity|].
  destruct (resolve_organizations_all 10 sample_store None None None r)
    as [-> _]; [reflexivity|exact E|].
  by vm_compute.
Defined.

(** An empty [filters] mapping is the same as no [filters] argument, for
    each of the four queries. *)
Theorem resolve_empty_filters (default_page_size : Z) (st : Store)
    (page page_size : option Z) :
  resolve_organizations default_page_size st (Some ∅) page page_size
  = resolve_organizations default_page_size st None page page_size
  ∧ resolve_uidentities default_page_size st (Some ∅) page page_size
    = resolve_uidentities default_page_size st None page page_size
  ∧ resolve_transactions default_page_size st (Some ∅) page page_size
    = resolve_transactions default_page_size st None page page_size
  ∧ resolve_operations default_page_size st (Some ∅) page page_size
    = resolve_operations default_page_size st None page page_size.
Proof.
  unfold resolve_organizations, resolve_uidentities, resolve_transactions,
    resolve_operations.
  rewrite !has_filter_empty. by repeat split.
Qed.

(** ** The transactions query *)

(** A [name] filter makes the transactions query fail, whatever else the
    filters hold: [Transaction] has no such column and [filter] raises
    [FieldError]. *)
Theorem resolve_transactions_name (default_page_size : Z) (st : Store)
    (f : gmap string value) (page page_size : option Z) :
  is_Some (f !! "name") →
  resolve_transactions default_page_size st (Some f) page page_size
  = Err (FieldError "name").
Proof.
  intros [v Hv]. unfold resolve_transactions.
  rewrite objects_Transaction.
  cbn [fmap result_fmap mbind result_bind].
  set (q0 := order_by "created_at" _).
  assert (qs_model q0 = Transaction.meta) as Hq0 by reflexivity.
  clearbody q0.
  destruct (if has_filter (Some f) "tuid" then _ else _) as [q1|e] eqn:E.
  - apply filter_step in E as (Hm & _).
    cbn [mbind result_bind].
    rewrite !has_filter_Some.
    rewrite (bool_decide_eq_true_2 (is_Some (f !! "name"))) by (by exists v).
    rewrite (getitem_Some _ _ _ Hv). cbn [mbind result_bind].
    rewrite filter_by_name by congruence. reflexivity.
  - exfalso. revert E. destruct (has_filter (Some f) "tuid") eqn:Ht;
      [|discriminate].
    destruct (has_filter_getitem _ _ Ht) as [v' ->].
    cbn [mbind result_bind].
    destruct (filter_by_tuid v' q0 Hq0) as (q' & -> & _). discriminate.
Qed.

Lemma resolve_transactions_name_witness :
  resolve_transactions 10 empty_store (Some {["name" := VStr "x"]}) None None
  = Err (FieldError "name").
Proof.
  apply resolve_transactions_name. eexists. by vm_compute.
Defined.

(** Spelling the key both ways does not help: with [is_closed] and
    [isClosed] among the filters (and no [name]) the value is found, and
    the filter on [is_closed] raises [FieldError], [Transaction] having
    no such column either. *)
Theorem resolve_transactions_isClosed (default_page_size : Z) (st : Store)
    (f : gmap string value) (page page_size : option Z) :
  f !! "name" = None →
  is_Some (f !! "is_closed") → is_Some (f !! "isClosed") →
  resolve_transactions default_page_size st (Some f) page page_size
  = Err (FieldError "is_closed").
Proof.
  intros Hname Hclosed [v Hv]. unfold resolve_transactions.
  rewrite objects_Transaction.
  cbn [fmap result_fmap mbind result_bind].
  set (q0 := order_by "created_at" _).
  assert (qs_model q0 = Transaction.meta) as Hq0 by reflexivity.
  clearbody q0.
  destruct (if has_filter (Some f) "tuid" then _ else _) as [q1|e] eqn:E.
  - apply filter_step in E as (Hm & _).
    cbn [mbind result_bind].
    rewrite (has_filter_absent _ _ Hname). cbn [mbind result_bind].
    rewrite !has_filter_Some.
    rewrite (bool_decide_eq_true_2 _ Hclosed).
    rewrite (getitem_Some _ _ _ Hv). cbn [mbind result_bind].
    rewrite filter_by_is_closed by congruence. reflexivity.
  - exfalso. revert E. destruct (has_filter (Some f) "tuid") eqn:Ht;
      [|discriminate].
    destruct (has_filter_getitem _ _ Ht) as [v' ->].
    cbn [mbind result_bind].
    destruct (filter_by_tuid v' q0 Hq0) as (q' & -> & _). discriminate.
Qed.

Lemma resolve_transactions_isClosed_witness :
  resolve_transactions 10 empty_store
    (Some (<["isClosed" := VBool true]> {["is_closed" := VBool true]}))
    None None
  = Err (FieldError "is_closed").
Proof.
  apply resolve_transactions_isClosed.
  - by vm_compute.
  - eexists. by vm_compute.
  - eexists. by vm_compute.
Defined.

(** The filters of the transactions query that work: without [name] and
    [is_closed], a returned page holds stored transactions only, and each
    of them has the [tuid] asked for, was created at or after [from_date]
    and at or before [to_date], for those of the three that are given. *)
Theorem resolve_transactions_window (default_page_size : Z) (st : Store)
    (f : gmap string value) (page page_size : option Z) (r : PaginatedType) :
  f !! "name" = None → f !! "is_closed" = None →
  resolve_transactions default_page_size st (Some f) page page_size = Ok r →
  ∀ i, i ∈ entities r →
    ∃ t, t ∈ transactions st ∧ i = Transaction_instance t
      ∧ (∀ v, f !! "tuid" = Some v → VStr (Transaction.tuid t) = v)
      ∧ (∀ v, f !! "from_date" = Some v →
              ∃ d, v = VDate d ∧ dt_le d (Transaction.created_at t))
      ∧ (∀ v, f !! "to_date" = Some v →
              ∃ d, v = VDate d ∧ dt_le (Transaction.created_at t) d).
Proof.
  intros Hname Hclosed. unfold resolve_transactions.
  rewrite objects_Transaction.
  cbn [fmap result_fmap mbind result_bind].
  destruct (order_by_sorted "created_at"
              (MkQuerySet Transaction.meta (table st Transaction.meta)))
    as (_ & Hperm & _).
  set (q0 := order_by "created_at" _) in *. clearbody q0.
  destruct (if has_filter (Some f) "tuid" then _ else _) as [q1|] eqn:E1;
    [|discriminate].
  cbn [mbind result_bind].
  rewrite (has_filter_absent _ _ Hname), (has_filter_absent _ _ Hclosed).
  cbn [mbind result_bind].
  destruct (if has_filter (Some f) "from_date" then _ else _) as [q2|] eqn:E2;
    [|discriminate].
  cbn [mbind result_bind].
  destruct (if has_filter (Some f) "to_date" then _ else _) as [q3|] eqn:E3;
    [|discriminate].
  cbn [mbind result_bind]. intros Hr i Hi.
  apply filter_step in E1 as (_ & Hs1 & _ & Hl1).
  apply filter_step in E2 as (_ & Hs2 & _ & Hl2).
  apply filter_step in E3 as (_ & Hs3 & _ & Hl3).
  apply create_paginated_result_entities in Hr as [Hsub _].
  apply (sublist_subseteq _ _ Hsub) in Hi.
  pose proof (sublist_subseteq _ _ Hs3 _ Hi) as Hi2.
  pose proof (sublist_subseteq _ _ Hs2 _ Hi2) as Hi1.
  pose proof (sublist_subseteq _ _ Hs1 _ Hi1) as Hi0.
  rewrite Hperm in Hi0. cbn [qs_list] in Hi0.
  change (table st Transaction.meta)
    with (Transaction_instance <$> transactions st) in Hi0.
  apply list_elem_of_fmap in Hi0 as (t & -> & Ht).
  exists t. split; [done|]. split; [done|]. split; [|split].
  - intros v Hv. rewrite (Hl1 _ Hv) in Hi1.
    apply list_elem_of_filter in Hi1 as [Hm _].
    rewrite attr_Transaction_tuid in Hm. by apply bool_decide_eq_true in Hm.
  - intros v Hv. rewrite (Hl2 _ Hv) in Hi2.
    apply list_elem_of_filter in Hi2 as [Hm _].
    rewrite attr_Transaction_created_at in Hm. cbn [matches] in Hm.
    destruct v as [| | | |d|]; try discriminate.
    exists d. split; [done|]. by apply Z.leb_le in Hm.
  - intros v Hv. rewrite (Hl3 _ Hv) in Hi.
    apply list_elem_of_filter in Hi as [Hm _].
    rewrite attr_Transaction_created_at in Hm. cbn [matches] in Hm.
    destruct v as [| | | |d|]; try discriminate.
    exists d. split; [done|]. by apply Z.leb_le in Hm.
Qed.

Lemma resolve_transactions_window_witness :
  let from_date := Datetime 2019 3 2 0 0 0 0 in
  ∃ r,
    resolve_transactions 10 sample_transactions
      (Some {["from_date" := VDate from_date]}) None None = Ok r
    ∧ length (entities r) = 2%nat
    ∧ ∀ i, i ∈ entities r →
        ∃ t, i = Transaction_instance t
             ∧ dt_le from_date (Transaction.created_at t).
Proof.
  intros from_date.
  destruct (resolve_transactions 10 sample_transactions
              (Some {["from_date" := VDate from_date]}) None None)
    as [r|] eqn:E; [|by vm_compute in E].
  exists r. split; [reflexivity|]. split.
  - vm_compute in E. by injection E as <-.
  - intros i Hi.
    destruct (resolve_transactions_window 10 sample_transactions
                {["from_date" := VDate from_date]} None None r
                ltac:(by vm_compute) ltac:(by vm_compute) E i Hi)
      as (t & _ & -> & _ & Hfrom & _).
    exists t. split; [done|].
    destruct (Hfrom (VDate from_date) ltac:(by vm_compute)) as (d & [= <-] & Hd).
    exact Hd.
Defined.

(** ** Moving between pages *)

(** On a returned page, [has_next] tells whether the next page can be
    fetched and [has_prev] whether the previous one can. *)
Theorem has_next_has_prev_fetch (query : QuerySet) (page page_size : Z)
    (r : PaginatedType) :
  create_paginated_result query page page_size = Ok r →
  has_next (page_info r)
  = is_ok (create_paginated_result query (page + 1) page_size)
  ∧ has_prev (page_info r)
    = is_ok (create_paginated_result query (page - 1) page_size).
Proof.
  rewrite !create_paginated_result_eq.
  set (total := Z.of_nat (length (qs_list query))).
  assert (0 <= total) by (unfold total; lia).
  destruct (Z.leb_spec 1 page); [|discriminate].
  destruct (Z.leb_spec 1 page_size); [|discriminate].
  destruct (Z.ltb_spec ((page - 1) * page_size) (Z.max 1 total));
    [|discriminate].
  cbn [andb]. intros [= <-]. cbn [page_info has_next has_prev].
  split.
  - destruct (Z.leb_spec 1 (page + 1)); [|lia]. cbn [andb].
    destruct (Z.ltb_spec (page * page_size) total),
      (Z.ltb_spec ((page + 1 - 1) * page_size) (Z.max 1 total));
      try done; nia.
  - destruct (Z.ltb_spec 1 page), (Z.leb_spec 1 (page - 1)); try lia.
    + cbn [andb].
      by destruct (Z.ltb_spec ((page - 1 - 1) * page_size) (Z.max 1 total));
        [|nia].
    + done.
Qed.

Lemma has_next_has_prev_fetch_witness :
  ∃ r,
    create_paginated_result
      (MkQuerySet Transaction.meta [one_instance; one_instance; one_instance])
      2 2 = Ok r
    ∧ has_next (page_info r) = false ∧ has_prev (page_info r) = true.
Proof.
  destruct (create_paginated_result
              (MkQuerySet Transaction.meta
                 [one_instance; one_instance; one_instance]) 2 2)
    as [r|] eqn:E; [|by vm_compute in E].
  exists r. split; [reflexivity|].
  destruct (has_next_has_prev_fetch _ _ _ _ E) as [-> ->].
  by vm_compute.
Defined.

(** ** Imports *)

Lemma import_from_spec (ns names : list string) :
  (import_from ns names = Ok () ↔ ∀ n, n ∈ names → n ∈ ns)
  ∧ ∀ e, import_from ns names = Err e →
         ∃ n, e = ImportError n ∧ n ∈ names ∧ n ∉ ns.
Proof.
  induction names as [|n names [IH1 IH2]]; cbn [import_from].
  - split; [|discriminate]. split; [|done]. intros _ n Hn.
    by apply elem_of_nil in Hn.
  - case_bool_decide as Hn.
    + split.
      * rewrite IH1. split.
        -- intros H m Hm. apply elem_of_cons in Hm as [->|Hm]; auto.
        -- intros H m Hm. apply H. by right.
      * intros e He. destruct (IH2 e He) as (m & -> & Hm & Hno).
        exists m. split; [done|]. split; [by right|done].
    + split.
      * split; [discriminate|]. intros H. exfalso. apply Hn, H. by left.
      * intros e [= <-]. exists n. split; [done|]. split; [by left|done].
Qed.

(** The import of [schema.py] from [.models] goes through exactly when
    every name is bound there, and otherwise raises [ImportError] for a
    name of the list that is not. Of the names it lists, [Operation] is
    the only one [models.py] does not bind: without it the import goes
    through. *)
Theorem import_from_models :
  (∀ ns names,
     (import_from ns names = Ok () ↔ ∀ n, n ∈ names → n ∈ ns)
     ∧ ∀ e, import_from ns names = Err e →
            ∃ n, e = ImportError n ∧ n ∈ names ∧ n ∉ ns)
  ∧ import_from namespace (filter (λ n, n ≠ "Operation") models_imports)
    = Ok ()
  ∧ ∀ n, n ∈ models_imports → n ≠ "Operation" → is_Some (find_model n).
Proof.
  split; [exact import_from_spec|]. split; [by vm_compute|].
  intros n Hn Hne.
  assert (Forall (λ n, n ≠ "Operation" → is_Some (find_model n))
            models_imports) as H.
  { unfold models_imports.
    repeat (apply List.Forall_cons;
            [intros Hx; first [by destruct Hx | eexists; by vm_compute]|]).
    apply List.Forall_nil. }
  rewrite Forall_forall in H. by apply H.
Qed.

(** ** The declarations of the models *)

(** The models are declared consistently: model names and table names are
    not reused; each model has one primary key and no two fields of one
    name; [unique_together] and [ordering] name fields of the model; every
    relation points to a model of the module, and the relations declared
    [SET_NULL] are on nullable columns. *)
Theorem models_well_formed :
  NoDup (model_name <$> models)
  ∧ NoDup (db_table <$> models)
  ∧ Forall (λ m,
      length (filter (λ f, primary_key f = true) (fields m)) = 1%nat
      ∧ NoDup (fname <$> fields m)
      ∧ unique_together m ⊆ fname <$> fields m
      ∧ ordering m ⊆ fname <$> fields m
      ∧ Forall (λ f, match relation_of f with
                     | Some r =>
                         is_Some (find_model (to r))
                         ∧ (on_delete r = SET_NULL → null f = true)
                     | None => True
                     end) (fields m))
      models.
Proof.
  split; [apply (bool_decide_unpack _); by vm_compute|].
  split; [apply (bool_decide_unpack _); by vm_compute|].
  unfold models.
  repeat (apply List.Forall_cons; [|]); [..|apply List.Forall_nil];
    (split; [by vm_compute|];
     split; [apply (bool_decide_unpack _); by vm_compute|];
     split; [apply (bool_decide_unpack _); by vm_compute|];
     split; [apply (bool_decide_unpack _); by vm_compute|];
     cbn;
     repeat (apply List.Forall_cons;
             [first [exact I
                    | split; [eexists; by vm_compute
                             | first [discriminate | reflexivity]]]|]);
     apply List.Forall_nil).
Qed.

(** ** Deleting twice *)

Lemma filter_ne_idemp {A B} `{EqDecision B} (f : A → B) (pk : B) (l : list A) :
  filter (λ a, f a ≠ pk) (filter (λ a, f a ≠ pk) l) = filter (λ a, f a ≠ pk) l.
Proof.
  induction l as [|x l IH]; [done|].
  rewrite filter_cons. case_decide; [|done].
  by rewrite filter_cons_True, IH.
Qed.

Lemma fmap_null_idemp {A} (refers : A → Prop) `{!∀ x, Decision (refers x)}
    (set_null : A → A) (l : list A) :
  (∀ x, ¬ refers (set_null x)) →
  let step := λ x, if decide (refers x) then set_null x else x in
  step <$> (step <$> l) = step <$> l.
Proof.
  intros Hnull step. rewrite <- list_fmap_compose.
  apply list_fmap_ext. intros _ x _. unfold step, compose.
  destruct (decide (refers x)) as [Hr|Hr].
  - by rewrite decide_False by apply Hnull.
  - by rewrite decide_False.
Qed.

Lemma Store_eq (a b : Store) :
  organizations a = organizations b →
  domains_organizations a = domains_organizations b →
  countries a = countries b →
  uidentities a = uidentities b →
  identities a = identities b →
  profiles a = profiles b →
  enrollments a = enrollments b →
  matching_blacklist a = matching_blacklist b →
  contexts a = contexts b →
  transactions a = transactions b →
  autofield a = autofield b →
  a = b.
Proof. destruct a, b. cbn. by intros -> -> -> -> -> -> -> -> -> -> ->. Qed.

Lemma delete_Organization_tables (pk : Z) (st : Store) :
  let st' := delete_Organization pk st in
  organizations st' = filter (λ o, Organization.id o ≠ pk) (organizations st)
  ∧ domains_organizations st'
    = filter (λ d, Domain.organization d ≠ pk) (domains_organizations st)
  ∧ enrollments st'
    = filter (λ e, Enrollment.organization e ≠ pk) (enrollments st)
  ∧ countries st' = countries st ∧ uidentities st' = uidentities st
  ∧ identities st' = identities st ∧ profiles st' = profiles st
  ∧ matching_blacklist st' = matching_blacklist st
  ∧ contexts st' = contexts st ∧ transactions st' = transactions st
  ∧ autofield st' = autofield st.
Proof. by repeat split. Qed.

Lemma delete_UniqueIdentity_tables (pk : string) (st : Store) :
  let st' := delete_UniqueIdentity pk st in
  uidentities st' = filter (λ u, UniqueIdentity.uuid u ≠ pk) (uidentities st)
  ∧ identities st' = filter (λ i, Identity.uidentity i ≠ pk) (identities st)
  ∧ profiles st' = filter (λ p, Profile.uidentity p ≠ pk) (profiles st)
  ∧ enrollments st'
    = filter (λ e, Enrollment.uidentity e ≠ pk) (enrollments st)
  ∧ organizations st' = organizations st
  ∧ domains_organizations st' = domains_organizations st
  ∧ countries st' = countries st
  ∧ matching_blacklist st' = matching_blacklist st
  ∧ contexts st' = contexts st ∧ transactions st' = transactions st
  ∧ autofield st' = autofield st.
Proof. by repeat split. Qed.

Lemma delete_Country_tables (pk : string) (st : Store) :
  let st' := delete_Country pk st in
  countries st' = filter (λ c, Country.code c ≠ pk) (countries st)
  ∧ profiles st'
    = (λ p, if decide (Profile.country p = Some pk)
            then Profile_null_country p else p) <$> profiles st
  ∧ organizations st' = organizations st
  ∧ domains_organizations st' = domains_organizations st
  ∧ uidentities st' = uidentities st ∧ identities st' = identities st
  ∧ enrollments st' = enrollments st
  ∧ matching_blacklist st' = matching_blacklist st
  ∧ contexts st' = contexts st ∧ transactions st' = transactions st
  ∧ autofield st' = autofield st.
Proof. by repeat split. Qed.

Lemma delete_Context_tables (pk : string) (st : Store) :
  let st' := delete_Context pk st in
  contexts st' = filter (λ c, Context.cuid c ≠ pk) (contexts st)
  ∧ transactions st'
    = (λ t, if decide (Transaction.context t = Some pk)
            then Transaction_null_context t else t) <$> transactions st
  ∧ organizations st' = organizations st
  ∧ domains_organizations st' = domains_organizations st
  ∧ countries st' = countries st
  ∧ uidentities st' = uidentities st ∧ identities st' = identities st
  ∧ profiles st' = profiles st ∧ enrollments st' = enrollments st
  ∧ matching_blacklist st' = matching_blacklist st
  ∧ autofield st' = autofield st.
Proof. by repeat split. Qed.

(** Deleting a row that is already gone changes nothing: each of the
    four deletions, done a second time with the same key, leaves the
    store as the first left it. *)
Theorem delete_twice (st : Store) :
  (∀ pk, delete_Organization pk (delete_Organization pk st)
         = delete_Organization pk st)
  ∧ (∀ pk, delete_UniqueIdentity pk (delete_UniqueIdentity pk st)
           = delete_UniqueIdentity pk st)
  ∧ (∀ pk, delete_Country pk (delete_Country pk st) = delete_Country pk st)
  ∧ (∀ pk, delete_Context pk (delete_Context pk st) = delete_Context pk st).
Proof.
  split; [|split; [|split]]; intros pk.
  - pose proof (delete_Organization_tables pk (delete_Organization pk st))
      as (O2 & D2 & E2 & H2).
    pose proof (delete_Organization_tables pk st) as (O1 & D1 & E1 & _).
    apply Store_eq; try tauto.
    + rewrite O2, O1. apply filter_ne_idemp.
    + rewrite D2, D1. apply filter_ne_idemp.
    + rewrite E2, E1. apply filter_ne_idemp.
  - pose proof (delete_UniqueIdentity_tables pk (delete_UniqueIdentity pk st))
      as (U2 & I2 & P2 & E2 & H2).
    pose proof (delete_UniqueIdentity_tables pk st) as (U1 & I1 & P1 & E1 & _).
    apply Store_eq; try tauto.
    + rewrite U2, U1. apply filter_ne_idemp.
    + rewrite I2, I1. apply filter_ne_idemp.
    + rewrite P2, P1. apply filter_ne_idemp.
    + rewrite E2, E1. apply filter_ne_idemp.
  - pose proof (delete_Country_tables pk (delete_Country pk st))
      as (C2 & P2 & H2).
    pose proof (delete_Country_tables pk st) as (C1 & P1 & _).
    apply Store_eq; try tauto.
    + rewrite C2, C1. apply filter_ne_idemp.
    + rewrite P2, P1.
      apply (fmap_null_idemp (λ p, Profile.country p = Some pk)).
      intros p. discriminate.
  - pose proof (delete_Context_tables pk (delete_Context pk st))
      as (C2 & T2 & H2).
    pose proof (delete_Context_tables pk st) as (C1 & T1 & _).
    apply Store_eq; try tauto.
    + rewrite C2, C1. apply filter_ne_idemp.
    + rewrite T2, T1.
      apply (fmap_null_idemp (λ t, Transaction.context t = Some pk)).
      intros t. discriminate.
Qed.

(** ** Mutations *)

Lemma kwargs_keys (kwargs : gmap string value) (k : string) :
  k ∈ (map_to_list kwargs).*1 ↔ is_Some (kwargs !! k).
Proof.
  rewrite list_elem_of_fmap. split.
  - intros ([k' v] & -> & Hin). apply elem_of_map_to_list in Hin. by exists v.
  - intros [v Hv]. exists (k, v). split; [done|].
    by apply elem_of_map_to_list.
Qed.

(** [mutate] raises [TypeError] exactly when a keyword names none of its
    parameters or a parameter without a default is not given. *)
Lemma call_mutate_TypeError (m : Mutation) (kwargs : gmap string value) :
  call_mutate m kwargs = TypeError
  ↔ (∃ k, is_Some (kwargs !! k) ∧ k ∉ (parameters m).*1)
    ∨ (∃ p, p ∈ parameters m ∧ p.2 = None ∧ kwargs !! p.1 = None).
Proof.
  unfold call_mutate.
  destruct (bool_decide (Forall _ (map_to_list kwargs).*1)) eqn:HA;
    destruct (bool_decide (Forall _ (parameters m))) eqn:HB; cbn [andb].
  - apply bool_decide_eq_true in HA, HB.
    rewrite Forall_forall in HA. rewrite Forall_forall in HB.
    split; [discriminate|].
    intros [(k & Hk & Hno)|(p & Hp & Hreq & Hmiss)]; exfalso.
    + apply Hno, HA. by apply kwargs_keys.
    + specialize (HB p Hp Hreq). rewrite Hmiss in HB. by destruct HB.
  - apply bool_decide_eq_false in HB.
    split; [intros _|done]. right.
    apply not_Forall_Exists in HB; [|apply _].
    apply Exists_exists in HB as (p & Hp & Hno). exists p. split; [done|].
    unfold compose in Hno.
    destruct (p.2) as [d|].
    + exfalso. apply Hno. intros Heq. discriminate Heq.
    + split; [done|]. destruct (kwargs !! p.1) eqn:E; [|done].
      exfalso. apply Hno. intros _. by eexists.
  - apply bool_decide_eq_false in HA.
    split; [intros _|done]. left.
    apply not_Forall_Exists in HA; [|apply _].
    apply Exists_exists in HA as (k & Hk & Hno). exists k.
    split; [by apply kwargs_keys|done].
  - apply bool_decide_eq_false in HA.
    split; [intros _|done]. left.
    apply not_Forall_Exists in HA; [|apply _].
    apply Exists_exists in HA as (k & Hk & Hno). exists k.
    split; [by apply kwargs_keys|done].
Qed.

(** A request may give a mutation any of the arguments it declares. The
    call of [mutate] that follows fails with [TypeError] exactly when a
    parameter without a default is not given or, for [DeleteIdentity],
    when [unique_identity] is given: it is declared as an argument, and
    [mutate] has no parameter of that name. Every other declared argument
    of every mutation is a parameter of its [mutate]. *)
Theorem call_mutate_declared (m : Mutation) (kwargs : gmap string value) :
  m ∈ SortingHatMutation →
  (∀ k, is_Some (kwargs !! k) → k ∈ arguments m) →
  call_mutate m kwargs = TypeError
  ↔ (m = DeleteIdentity ∧ is_Some (kwargs !! "unique_identity"))
    ∨ (∃ p, p ∈ parameters m ∧ p.2 = None ∧ kwargs !! p.1 = None).
Proof.
  intros Hm Hdecl. rewrite call_mutate_TypeError.
  split; (intros [H|H]; [|by right]).
  - left. destruct H as (k & Hk & Hno). specialize (Hdecl k Hk).
    unfold SortingHatMutation in Hm.
    repeat (apply elem_of_cons in Hm as [->|Hm]);
      try (by apply elem_of_nil in Hm);
      try (exfalso; apply Hno; exact Hdecl).
    split; [done|].
    cbn in Hdecl, Hno.
    apply elem_of_cons in Hdecl as [->|Hdecl].
    + exfalso. apply Hno. left.
    + apply list_elem_of_singleton in Hdecl as ->. exact Hk.
  - left. destruct H as [-> Hk]. exists "unique_identity".
    split; [done|]. cbn. intros Hin.
    apply list_elem_of_singleton in Hin. discriminate.
Qed.

Lemma call_mutate_declared_witness :
  call_mutate DeleteIdentity
    (<["unique_identity" := VBool true]> {["uuid" := VStr "U1"]})
  = TypeError
  ∧ call_mutate DeleteIdentity {["uuid" := VStr "U1"]}
    = Bound {["uuid" := VStr "U1"]}.
Proof.
  split; [|by vm_compute].
  apply (call_mutate_declared DeleteIdentity).
  - unfold SortingHatMutation. do 5 right. left.
  - intros k [v Hv]. cbn.
    destruct (decide (k = "unique_identity")) as [->|Hne].
    + right. left.
    + rewrite lookup_insert_ne in Hv by done.
      destruct (decide (k = "uuid")) as [->|Hne']; [left|].
      by rewrite lookup_singleton_ne in Hv.
  - left. split; [done|]. eexists. by vm_compute.
Defined.

(** * Merging and withdrawing under the uniqueness of enrollments *)



(** ** merge_identities *)







(** ** withdraw *)

Section withdraw_window.
Variables (now : datetime) (uuid : string) (org : Z).
Variables (from_date to_date : datetime).

Let one := withdraw_enrollment now uuid org from_date to_date.
Let all := withdraw_enrollments now uuid org from_date to_date.






End withdraw_window.




(** Withdrawing 2003-2005 from 2000-2010 and 2000-2003 would leave two
    enrollments 2000-2003: the store refuses. *)
Example withdraw_same_start :
  withdraw sample_now sample_same_start "U1" "Acme"
    (Some (sample_year 2003)) (Some (sample_year 2005))
  = Err DuplicateEntityError.
Proof. by vm_compute. Qed.
